(** * Nitrogen cascade of the pig nutrient circularity tool

    A shallow embedding of [Cascading_app.py]: the baseline flow table
    [BASE_FLOWS_N], the partition fractions [P_F8] .. [P_F16] computed
    when the module is loaded, the metrics function
    [compute_circularity_metrics_N], the arithmetic of the callback
    [update_scenario] and the lists of numbers it hands to its two
    figures; then the metrics function and the callback of the three
    earlier variants of the tool.

    Python dictionaries are finite maps with string keys; a subscript
    [d["k"]] raises [KeyError] when the key is absent and [a / b] raises
    [ZeroDivisionError] when [b] is zero, so the code lives in an error
    monad.  The code is written once, over an interface of numbers, and is
    read at two instances: IEEE binary64, which is what CPython computes,
    and exact rationals, the arithmetic the flows are meant to obey.  A
    statement about rationals is a statement in exact arithmetic: it tells
    what the formulas mean, not what the floats are bit for bit; what the
    floats do is stated on the binary64 instance.  Where the numbers
    come from outside - the percent the callback is called with, the
    table the metrics function is given - Python's [int]s and [float]s
    are kept apart, since an [int] beyond the floats raises
    [OverflowError] when it meets a float. *)

From Stdlib Require Import ZArith QArith Qminmax Qabs Lqa Lia.
From Corelib Require Import SpecFloat.
From stdpp Require Import gmap strings.

Local Open Scope string_scope.

(** ** Exceptions and results *)

Inductive exn : Type :=
  | KeyError (key : string)
  | ZeroDivisionError
  | OverflowError.

Inductive result (A : Type) : Type :=
  | Ok (a : A)
  | Raise (e : exn).

Arguments Ok {A} a.
Arguments Raise {A} e.

#[export] Instance result_ret : MRet result := fun A a => Ok a.

#[export] Instance result_bind : MBind result := fun A B f r =>
  match r with
  | Ok a => f a
  | Raise e => Raise e
  end.

(** ** Numbers

    The operations the program applies to its numbers.  [num z] is a
    literal whose value is the integer [z] ([900], [100.0]); [div] is the
    quotient for a non-zero divisor and [is_zero] is the test [/] makes
    before dividing; [lt] is [<]. *)

Class PyNumber (T : Type) : Type := {
  num : Z -> T;
  add : T -> T -> T;
  sub : T -> T -> T;
  mul : T -> T -> T;
  div : T -> T -> T;
  is_zero : T -> bool;
  lt : T -> T -> bool;
}.

Declare Scope py_scope.
Delimit Scope py_scope with py.
Notation "x + y" := (add x y) : py_scope.
Notation "x - y" := (sub x y) : py_scope.
Notation "x * y" := (mul x y) : py_scope.

Section Program.

Context {T : Type} `{PyNumber T}.

Local Open Scope py_scope.

(** [a / b] *)
Definition truediv (a b : T) : result T :=
  if is_zero b then Raise ZeroDivisionError else Ok (div a b).

(** The builtin [min(a, b)]: the first argument is kept unless the second
    is smaller. *)
Definition py_min (a b : T) : T := if lt b a then b else a.

(** The builtin [max(a, b)]: the first argument is kept unless the second
    is greater. *)
Definition py_max (a b : T) : T := if lt a b then b else a.

(** [d[k]] *)
Definition getitem (d : gmap string T) (k : string) : result T :=
  match d !! k with
  | Some v => Ok v
  | None => Raise (KeyError k)
  end.

(** [d[k] = v] *)
Definition setitem (d : gmap string T) (k : string) (v : T) : gmap string T :=
  <[k := v]> d.

(** Baseline N flows F1 .. F20 in kg N/year. *)
Definition BASE_FLOWS_N : gmap string T :=
  list_to_map
    [ ("F1", num 4800); ("F2", num 800); ("F3", num 300); ("F4", num 0);
      ("F5", num 2400); ("F6", num 2400); ("F7", num 900); ("F8", num 1900);
      ("F9", num 200); ("F10", num 300); ("F11", num 1300); ("F12", num 300);
      ("F13", num 300); ("F14", num 0); ("F15", num 800); ("F16", num 500);
      ("F17", num 200); ("F18", num 50); ("F19", num 100); ("F20", num 50) ].

(** The identifiers of the twenty flows. *)
Definition FLOW_KEYS : list string :=
  [ "F1"; "F2"; "F3"; "F4"; "F5"; "F6"; "F7"; "F8"; "F9"; "F10";
    "F11"; "F12"; "F13"; "F14"; "F15"; "F16"; "F17"; "F18"; "F19"; "F20" ].

(** The partition fractions, module-level names of the source. *)
Record Partitions : Type := {
  P_F8 : T; P_F9 : T; P_F10 : T;
  P_F11 : T; P_F12 : T; P_F13 : T;
  P_F15 : T; P_F16 : T;
}.

(** Lines 85-100: the fractions derived from a baseline table, in the
    order the module evaluates them. *)
Definition partition_fractions (base : gmap string T) : result Partitions :=
  b8 ← getitem base "F8"; b9 ← getitem base "F9"; b10 ← getitem base "F10";
  let _storage_out_total := b8 + b9 + b10 in
  n8 ← getitem base "F8"; p8 ← truediv n8 _storage_out_total;
  n9 ← getitem base "F9"; p9 ← truediv n9 _storage_out_total;
  n10 ← getitem base "F10"; p10 ← truediv n10 _storage_out_total;
  b11 ← getitem base "F11"; b12 ← getitem base "F12"; b13 ← getitem base "F13";
  let _soil_out_total := b11 + b12 + b13 in
  n11 ← getitem base "F11"; p11 ← truediv n11 _soil_out_total;
  n12 ← getitem base "F12"; p12 ← truediv n12 _soil_out_total;
  n13 ← getitem base "F13"; p13 ← truediv n13 _soil_out_total;
  _crop_in_baseline ← getitem base "F11";
  n15 ← getitem base "F15"; p15 ← truediv n15 _crop_in_baseline;
  n16 ← getitem base "F16"; p16 ← truediv n16 _crop_in_baseline;
  mret {| P_F8 := p8; P_F9 := p9; P_F10 := p10;
          P_F11 := p11; P_F12 := p12; P_F13 := p13;
          P_F15 := p15; P_F16 := p16 |}.

(** kg N/yr in plant-available soil at end of year *)
Definition ACCESSIBLE_TARGET : T := num 50.

(** The dictionary [compute_circularity_metrics_N] returns. *)
Record Metrics : Type := {
  input_N : T;
  circular_N : T;
  accessible_N : T;
  lost_N : T;
  env_loss : T;
  locked_stable : T;
}.

Definition compute_circularity_metrics_N (flows : gmap string T) : result Metrics :=
  f1 ← getitem flows "F1"; f3 ← getitem flows "F3"; f4 ← getitem flows "F4";
  let input := f1 + f3 + f4 in
  f5 ← getitem flows "F5"; f19 ← getitem flows "F19";
  let pig_exports := f5 + f19 in
  grain_exports ← getitem flows "F16";
  let circular := pig_exports + grain_exports in
  i4 ← getitem flows "F4"; i8 ← getitem flows "F8";
  i14 ← getitem flows "F14"; i18 ← getitem flows "F18";
  let C7_in := i4 + i8 + i14 + i18 in
  let accessible := py_min ACCESSIBLE_TARGET C7_in in
  f7 ← getitem flows "F7"; f10 ← getitem flows "F10";
  f12 ← getitem flows "F12"; f20 ← getitem flows "F20";
  let env := f7 + f10 + f12 + f20 in
  f9 ← getitem flows "F9"; f13 ← getitem flows "F13"; f14 ← getitem flows "F14";
  let locked := f9 + f13 - f14 in
  let lost := env + locked in
  mret {| input_N := input; circular_N := circular; accessible_N := accessible;
          lost_N := lost; env_loss := env; locked_stable := locked |}.

(** The local variables of [update_scenario] once the metrics have been
    recomputed (line 344). *)
Record Scenario : Type := {
  flows : gmap string T;
  delta : T;
  C7_in : T;
  accessible_pool : T;
  outflow_from_C7 : T;
  metrics : Metrics;
}.

(** Lines 312-344 of the callback, with the fractions of the module. *)
Definition update_scenario_with (P : Partitions) (housing_reduction_percent : T)
  : result Scenario :=
  let flows := BASE_FLOWS_N in
  reduction_factor ← truediv housing_reduction_percent (num 100);
  baseline_F7 ← getitem BASE_FLOWS_N "F7";
  baseline_F6 ← getitem BASE_FLOWS_N "F6";
  let new_F7 := baseline_F7 * (num 1 - reduction_factor) in
  let delta := baseline_F7 - new_F7 in
  let flows := setitem flows "F7" new_F7 in
  let flows := setitem flows "F6" (baseline_F6 + delta) in
  f6 ← getitem flows "F6"; let flows := setitem flows "F8" (f6 * P_F8 P) in
  f6 ← getitem flows "F6"; let flows := setitem flows "F9" (f6 * P_F9 P) in
  f6 ← getitem flows "F6"; let flows := setitem flows "F10" (f6 * P_F10 P) in
  f4 ← getitem flows "F4"; f8 ← getitem flows "F8";
  f14 ← getitem flows "F14"; f18 ← getitem flows "F18";
  let C7_in := f4 + f8 + f14 + f18 in
  let accessible_N := py_min ACCESSIBLE_TARGET C7_in in
  let outflow_from_C7 := py_max (C7_in - accessible_N) (num 0) in
  let flows := setitem flows "F11" (outflow_from_C7 * P_F11 P) in
  let flows := setitem flows "F12" (outflow_from_C7 * P_F12 P) in
  let flows := setitem flows "F13" (outflow_from_C7 * P_F13 P) in
  f11 ← getitem flows "F11"; let flows := setitem flows "F15" (f11 * P_F15 P) in
  f11 ← getitem flows "F11"; let flows := setitem flows "F16" (f11 * P_F16 P) in
  metrics ← compute_circularity_metrics_N flows;
  mret {| flows := flows; delta := delta; C7_in := C7_in;
          accessible_pool := accessible_N; outflow_from_C7 := outflow_from_C7;
          metrics := metrics |}.

(** The callback as the loaded module runs it: the fractions are those of
    [BASE_FLOWS_N]. *)
Definition update_scenario (housing_reduction_percent : T) : result Scenario :=
  P ← partition_fractions BASE_FLOWS_N;
  update_scenario_with P housing_reduction_percent.


(** The value a table holds for a flow ([0] for an absent key; the tables
    of the callback hold all twenty). *)
Definition flow (t : gmap string T) (k : string) : T :=
  match t !! k with
  | Some v => v
  | None => num 0
  end.

(** The keys [compute_circularity_metrics_N] subscripts, in the order it
    first reads them. *)
Definition READ_KEYS : list string :=
  [ "F1"; "F3"; "F4"; "F5"; "F19"; "F16"; "F8"; "F14"; "F18";
    "F7"; "F10"; "F12"; "F20"; "F9"; "F13" ].

(** The keys the partition fractions are derived from. *)
Definition PARTITION_KEYS : list string :=
  [ "F8"; "F9"; "F10"; "F11"; "F12"; "F13"; "F15"; "F16" ].

(** The flows [update_scenario] never assigns. *)
Definition KEPT_KEYS : list string :=
  [ "F1"; "F2"; "F3"; "F4"; "F5"; "F14"; "F17"; "F18"; "F19"; "F20" ].

(** *** The callback, run

    What the statements of [update_scenario_with] compute, one name per
    assignment; [update_scenario_with_run] below shows that the callback
    returns exactly these. *)
Section Run.

Variable P : Partitions.
Variable percent : T.

Definition run_reduction_factor : T := div percent (num 100).
Definition run_F7 : T := num 900 * (num 1 - run_reduction_factor).
Definition run_delta : T := num 900 - run_F7.
Definition run_F6 : T := num 2400 + run_delta.
Definition run_F8 : T := run_F6 * P_F8 P.
Definition run_F9 : T := run_F6 * P_F9 P.
Definition run_F10 : T := run_F6 * P_F10 P.
Definition run_C7_in : T := num 0 + run_F8 + num 0 + num 50.
Definition run_accessible : T := py_min ACCESSIBLE_TARGET run_C7_in.
Definition run_outflow : T := py_max (run_C7_in - run_accessible) (num 0).
Definition run_F11 : T := run_outflow * P_F11 P.
Definition run_F12 : T := run_outflow * P_F12 P.
Definition run_F13 : T := run_outflow * P_F13 P.
Definition run_F15 : T := run_F11 * P_F15 P.
Definition run_F16 : T := run_F11 * P_F16 P.

Definition run_flows : gmap string T :=
  list_to_map
    [ ("F1", num 4800); ("F2", num 800); ("F3", num 300); ("F4", num 0);
      ("F5", num 2400); ("F6", run_F6); ("F7", run_F7); ("F8", run_F8);
      ("F9", run_F9); ("F10", run_F10); ("F11", run_F11); ("F12", run_F12);
      ("F13", run_F13); ("F14", num 0); ("F15", run_F15); ("F16", run_F16);
      ("F17", num 200); ("F18", num 50); ("F19", num 100); ("F20", num 50) ].

Definition run_metrics : Metrics :=
  {| input_N := num 4800 + num 300 + num 0;
     circular_N := num 2400 + num 100 + run_F16;
     accessible_N := py_min ACCESSIBLE_TARGET (num 0 + run_F8 + num 0 + num 50);
     lost_N := (run_F7 + run_F10 + run_F12 + num 50) + (run_F9 + run_F13 - num 0);
     env_loss := run_F7 + run_F10 + run_F12 + num 50;
     locked_stable := run_F9 + run_F13 - num 0 |}.

Definition run : Scenario :=
  {| flows := run_flows; delta := run_delta; C7_in := run_C7_in;
     accessible_pool := run_accessible; outflow_from_C7 := run_outflow;
     metrics := run_metrics |}.

End Run.

End Program.

Arguments Partitions : clear implicits.
Arguments Metrics : clear implicits.
Arguments Scenario : clear implicits.

(** ** The figures

    [make_sankey_figure] and [make_circularity_bar_figure] hand lists of
    numbers to the plotting library; the lists are modelled, the plotting
    calls and the text labels are not. *)

(** Compartment (node) names, in the order of their indices *)
Definition NODES : list string :=
  [ "FEED_PURCHASED"; "FEED_HOMEGROWN"; "ANIMALS"; "FEEDER_PIGS_IMP";
    "FERT_PURCHASED"; "MANURE_STORAGE"; "SOIL_AVAILABLE"; "SOIL_STABLE";
    "CROPS"; "PIG_EXPORTS"; "GRAIN_EXPORTS"; "ENVIRONMENT"; "CARCASSES" ].

(** [enumerate(l)] *)
Definition enumerate {A : Type} (l : list A) : list (nat * A) :=
  zip (seq 0 (length l)) l.

(** [{name: i for i, name in enumerate(names)}]: one assignment per item,
    in order. *)
Definition index_of_names (names : list string) : gmap string nat :=
  foldl (fun d (p : nat * string) => <[p.2 := p.1]> d) ∅ (enumerate names).

(** The assignments of the comprehension, started from any dictionary and
    any first index. *)
Definition index_from (n : nat) (d : gmap string nat) (l : list string)
  : gmap string nat :=
  foldl (fun d (p : nat * string) => <[p.2 := p.1]> d) d (zip (seq n (length l)) l).

(** Map node name to index (for Sankey) *)
Definition NODE_IDX : gmap string nat := index_of_names NODES.

(** Links (source, target, flow_id) *)
Definition LINKS : list (string * string * string) :=
  [ ("FEED_PURCHASED", "ANIMALS", "F1");
    ("FEED_HOMEGROWN", "ANIMALS", "F2");
    ("FEEDER_PIGS_IMP", "ANIMALS", "F3");
    ("FERT_PURCHASED", "SOIL_AVAILABLE", "F4");
    ("ANIMALS", "PIG_EXPORTS", "F5");
    ("ANIMALS", "MANURE_STORAGE", "F6");
    ("ANIMALS", "ENVIRONMENT", "F7");
    ("MANURE_STORAGE", "SOIL_AVAILABLE", "F8");
    ("MANURE_STORAGE", "SOIL_STABLE", "F9");
    ("MANURE_STORAGE", "ENVIRONMENT", "F10");
    ("SOIL_AVAILABLE", "CROPS", "F11");
    ("SOIL_AVAILABLE", "ENVIRONMENT", "F12");
    ("SOIL_AVAILABLE", "SOIL_STABLE", "F13");
    ("SOIL_STABLE", "SOIL_AVAILABLE", "F14");
    ("CROPS", "FEED_HOMEGROWN", "F15");
    ("CROPS", "GRAIN_EXPORTS", "F16");
    ("ANIMALS", "CARCASSES", "F17");
    ("CARCASSES", "SOIL_AVAILABLE", "F18");
    ("CARCASSES", "PIG_EXPORTS", "F19");
    ("CARCASSES", "ENVIRONMENT", "F20") ].

(** The node labels and the three link lists given to [go.Sankey]. *)
Record Sankey (T : Type) : Type := {
  label : list string;
  source : list nat;
  target : list nat;
  value : list T;
}.

Arguments label {T} _.
Arguments source {T} _.
Arguments target {T} _.
Arguments value {T} _.

Section Figures.

Context {T : Type} `{PyNumber T}.

Local Open Scope py_scope.

(** The three list comprehensions of [make_sankey_figure], in the order
    they are evaluated. *)
Definition make_sankey_figure (flows : gmap string T) : result (Sankey T) :=
  sources ← mapM (fun l : string * string * string => getitem NODE_IDX l.1.1) LINKS;
  targets ← mapM (fun l : string * string * string => getitem NODE_IDX l.1.2) LINKS;
  values ← mapM (fun l : string * string * string => getitem flows l.2) LINKS;
  mret {| label := NODES; source := sources; target := targets; value := values |}.

(** The heights of the three bars of [make_circularity_bar_figure]:
    circular, accessible and lost as percent of the external input. *)
Definition make_circularity_bar_figure (metrics : Metrics T) : result (list T) :=
  let input := input_N metrics in
  c ← truediv (circular_N metrics) input; let circular := c * num 100 in
  a ← truediv (accessible_N metrics) input; let accessible := a * num 100 in
  l ← truediv (lost_N metrics) input; let lost := l * num 100 in
  mret [circular; accessible; lost].

(** The callback to its end (lines 344-360): the numbers, then the two
    figures built from them. *)
Definition update_scenario_figures (housing_reduction_percent : T)
  : result (Scenario T * Sankey T * list T) :=
  s ← update_scenario housing_reduction_percent;
  sankey_fig ← make_sankey_figure (flows s);
  bar_fig ← make_circularity_bar_figure (metrics s);
  mret (s, sankey_fig, bar_fig).

End Figures.

(** ** The earlier variants

    [interactive_app.py] moves the saved nitrogen from F7 to F6 and leaves
    every other flow alone; its metrics take the accessible pool and the
    stable soil gain as constants.  [app.py] has the same metrics function
    and no callback.  [dply_interact_app.py] repeats the metrics function
    and computes the same move with other expressions. *)

Module Interactive.
Section Variant.

Context {T : Type} `{PyNumber T}.

Local Open Scope py_scope.

Definition compute_circularity_metrics_N (flows : gmap string T) : result (Metrics T) :=
  f1 ← getitem flows "F1"; f3 ← getitem flows "F3"; f4 ← getitem flows "F4";
  let input := f1 + f3 + f4 in
  f5 ← getitem flows "F5"; f19 ← getitem flows "F19";
  let pig_exports := f5 + f19 in
  grain_exports ← getitem flows "F16";
  let circular := pig_exports + grain_exports in
  let accessible := num 50 in
  f7 ← getitem flows "F7"; f10 ← getitem flows "F10";
  f12 ← getitem flows "F12"; f20 ← getitem flows "F20";
  let env := f7 + f10 + f12 + f20 in
  let locked := num 500 in
  let lost := env + locked in
  mret {| input_N := input; circular_N := circular; accessible_N := accessible;
          lost_N := lost; env_loss := env; locked_stable := locked |}.

(** The table and the metrics of the callback (lines 284-299). *)
Definition update_scenario (housing_reduction_percent : T)
  : result (gmap string T * Metrics T) :=
  let flows := BASE_FLOWS_N in
  reduction_factor ← truediv housing_reduction_percent (num 100);
  baseline_F7 ← getitem BASE_FLOWS_N "F7";
  baseline_F6 ← getitem BASE_FLOWS_N "F6";
  let new_F7 := baseline_F7 * (num 1 - reduction_factor) in
  let delta := baseline_F7 - new_F7 in
  let flows := setitem flows "F7" new_F7 in
  let flows := setitem flows "F6" (baseline_F6 + delta) in
  metrics ← compute_circularity_metrics_N flows;
  mret (flows, metrics).

End Variant.
End Interactive.

Module Deployed.
Section Variant.

Context {T : Type} `{PyNumber T}.

Local Open Scope py_scope.

Definition compute_circularity_metrics_N (flows : gmap string T) : result (Metrics T) :=
  f1 ← getitem flows "F1"; f3 ← getitem flows "F3"; f4 ← getitem flows "F4";
  let input := f1 + f3 + f4 in
  f5 ← getitem flows "F5"; f19 ← getitem flows "F19";
  let pig_exports := f5 + f19 in
  grain_exports ← getitem flows "F16";
  let circular := pig_exports + grain_exports in
  let accessible := num 50 in
  f7 ← getitem flows "F7"; f10 ← getitem flows "F10";
  f12 ← getitem flows "F12"; f20 ← getitem flows "F20";
  let env := f7 + f10 + f12 + f20 in
  let locked := num 500 in
  let lost := env + locked in
  mret {| input_N := input; circular_N := circular; accessible_N := accessible;
          lost_N := lost; env_loss := env; locked_stable := locked |}.

(** The table and the metrics of the callback (lines 231-239);
    [flows["F7"] *= e] reads the entry, multiplies and stores. *)
Definition update_scenario (housing_reduction_percent : T)
  : result (gmap string T * Metrics T) :=
  let flows := BASE_FLOWS_N in
  reduction ← truediv housing_reduction_percent (num 100);
  f7 ← getitem flows "F7";
  let saved := f7 * reduction in
  f7 ← getitem flows "F7";
  let flows := setitem flows "F7" (f7 * (num 1 - reduction)) in
  f6 ← getitem flows "F6";
  let flows := setitem flows "F6" (f6 + saved) in
  metrics ← compute_circularity_metrics_N flows;
  mret (flows, metrics).

End Variant.
End Deployed.

(** The keys the metrics function of the earlier variants reads. *)
Definition TOY_READ_KEYS : list string :=
  [ "F1"; "F3"; "F4"; "F5"; "F19"; "F16"; "F7"; "F10"; "F12"; "F20" ].

(** ** Exact arithmetic

    The numbers read as rationals: the arithmetic the flows are meant to
    obey, free of rounding and of overflow.  CPython rounds where the
    rationals do not, so an equality or a strict inequality proved here
    holds of the formulas; whether it holds of the floats is a separate
    question, answered on the binary64 instance below. *)

#[export] Instance Q_number : PyNumber Q := {|
  num := inject_Z;
  add := Qplus;
  sub := Qminus;
  mul := Qmult;
  div := Qdiv;
  is_zero q := Qeq_bool q 0;
  lt a b := negb (Qle_bool b a);
|}.

Local Open Scope Q_scope.

(** The fractions the module derives from its baseline. *)
Definition FRACTIONS : Partitions Q :=
  {| P_F8 := 1900 # 2400; P_F9 := 200 # 2400; P_F10 := 300 # 2400;
     P_F11 := 1300 # 1900; P_F12 := 300 # 1900; P_F13 := 300 # 1900;
     P_F15 := 800 # 1300; P_F16 := 500 # 1300 |}.

(** Inflow of the soil-available compartment C7, read from a table. *)
Definition inflow_C7 (t : gmap string Q) : Q :=
  flow t "F4" + flow t "F8" + flow t "F14" + flow t "F18".

(** [a : b] is the ratio [c : d] within the tolerance [1e-9]. *)
Definition ratio_within (a b c d : Q) : Prop :=
  Qabs (a / b - c / d) <= 1 # 1000000000.

(** A table holds every key of the list. *)
Definition has_keys {T : Type} (t : gmap string T) (ks : list string) : Prop :=
  forall k, k ∈ ks -> is_Some (t !! k).

(** ** IEEE binary64

    The numbers read as CPython has them.  A [float] is a binary64 and is
    modelled by [spec_float] with precision 53 and maximal exponent 1024,
    rounding to nearest even; on floats [+], [-], [*] and [<] never raise
    and [/] raises only for a zero divisor.  An [int] of the module (a
    literal, an entry of [BASE_FLOWS_N]) is read by [num] as the binary64
    of the same value: these are far below [2^53], where the conversion is
    exact and the operations on the converted values give what Python
    gives on the integers.  An [int] that comes from outside meets a float
    through [int_to_float] below, which is where CPython raises
    [OverflowError]. *)

Definition b64_of_Z (z : Z) : spec_float := binary_normalize 53 1024 z 0 false.

#[export] Instance b64_number : PyNumber spec_float := {|
  num := b64_of_Z;
  add := SFadd 53 1024;
  sub := SFsub 53 1024;
  mul := SFmul 53 1024;
  div := SFdiv 53 1024;
  is_zero f := match f with S754_zero _ => true | _ => false end;
  lt := SFltb;
|}.

(** The fractions the module derives from its baseline, as floats:
    [1900 / 2400] is [0x1.9555555555555p-1], and so on. *)
Definition B64_FRACTIONS : Partitions spec_float :=
  {| P_F8 := S754_finite false 7130699410003285 (-53);
     P_F9 := S754_finite false 6004799503160661 (-56);
     P_F10 := S754_finite false 4503599627370496 (-55);
     P_F11 := S754_finite false 6162820542717521 (-53);
     P_F12 := S754_finite false 5688757424046942 (-55);
     P_F13 := S754_finite false 5688757424046942 (-55);
     P_F15 := S754_finite false 5542891849071380 (-53);
     P_F16 := S754_finite false 6928614811339225 (-54) |}.

(** The rational a finite binary64 stands for. *)
Definition b64_to_Q (f : spec_float) : option Q :=
  match f with
  | S754_zero _ => Some 0
  | S754_finite s m e => Some (inject_Z (cond_Zopp s (Zpos m)) * Qpower 2 e)
  | _ => None
  end.

(** The integers [0 .. n - 1]; the slider sends integers. *)
Definition Z_below (n : nat) : list Z := map Z.of_nat (seq 0 n).

(** The conservation equalities of a binary64 run, tested with [==]. *)
Definition b64_conserves (s : Scenario spec_float) : bool :=
  let f := flow (flows s) in
  SFeqb (add (f "F7") (f "F6")) (num 3300)
  && SFeqb (add (add (f "F8") (f "F9")) (f "F10")) (f "F6")
  && SFeqb (add (f "F15") (f "F16")) (f "F11")
  && SFeqb (add (add (add (f "F11") (f "F12")) (f "F13")) (accessible_pool s))
           (add (add (add (f "F4") (f "F8")) (f "F14")) (f "F18")).

(** A binary64 table against a rational one: equal at every flow key but
    F7, and within [1e-12] there. *)
Definition b64_matches (tb : gmap string spec_float) (tq : gmap string Q) : bool :=
  forallb
    (fun k =>
       match b64_to_Q (flow tb k) with
       | Some q =>
           if String.eqb k "F7"
           then Qle_bool (Qabs (q - flow tq k)) (1 # 1000000000000)
           else Qeq_bool q (flow tq k)
       | None => false
       end)
    FLOW_KEYS.

(** The same float, bit for bit. *)
Definition b64_identical (a b : spec_float) : bool :=
  match a, b with
  | S754_zero s1, S754_zero s2 => Bool.eqb s1 s2
  | S754_infinity s1, S754_infinity s2 => Bool.eqb s1 s2
  | S754_nan, S754_nan => true
  | S754_finite s1 m1 e1, S754_finite s2 m2 e2 =>
      Bool.eqb s1 s2 && Pos.eqb m1 m2 && Z.eqb e1 e2
  | _, _ => false
  end.

(** Two binary64 tables hold the same floats at every flow key. *)
Definition b64_same_table (t1 t2 : gmap string spec_float) : bool :=
  forallb (fun k => b64_identical (flow t1 k) (flow t2 k)) FLOW_KEYS.

Definition b64_conserves_at (z : Z) : bool :=
  match update_scenario (T := spec_float) (num z) with
  | Ok s => b64_conserves s
  | Raise _ => false
  end.

Definition b64_matches_at (z : Z) : bool :=
  match update_scenario (T := spec_float) (num z), update_scenario (T := Q) (num z) with
  | Ok sb, Ok sq => b64_matches (flows sb) (flows sq)
  | _, _ => false
  end.

Definition b64_variants_agree_at (z : Z) : bool :=
  match Interactive.update_scenario (T := spec_float) (num z),
        Deployed.update_scenario (T := spec_float) (num z),
        update_scenario (T := spec_float) (num z) with
  | Ok (ti, mi), Ok (td, md), Ok s =>
      b64_same_table td ti
      && b64_identical (flow (flows s) "F6") (flow ti "F6")
      && b64_identical (flow (flows s) "F7") (flow ti "F7")
  | _, _, _ => false
  end.

(** *** Numbers that come from outside *)

(** The conversion [/] applies to an [int] operand that meets a float:
    the nearest float, or [OverflowError] ("int too large to convert to
    float") when rounding takes it beyond the largest float. *)
Definition int_to_float (z : Z) : result spec_float :=
  match b64_of_Z z with
  | S754_infinity _ => Raise OverflowError
  | f => Ok f
  end.

(** What the callback is called with: the slider sends an [int], another
    caller may send a [float]. *)
Inductive pynum : Type :=
  | PyInt (z : Z)
  | PyFloat (f : spec_float).

Definition as_float (v : pynum) : result spec_float :=
  match v with
  | PyInt z => int_to_float z
  | PyFloat f => Ok f
  end.

(** The callback on such a number.  Its argument is used once, in
    [housing_reduction_percent / 100.0] (line 315), which converts an
    [int]; everything after is float arithmetic. *)
Definition update_scenario_py (v : pynum) : result (Scenario spec_float) :=
  p ← as_float v; update_scenario p.

Definition update_scenario_figures_py (v : pynum)
  : result (Scenario spec_float * Sankey spec_float * list spec_float) :=
  p ← as_float v; update_scenario_figures p.

(** *** Tables that come from outside

    The metrics functions take any dictionary.  Its entries may be
    [int]s, as those of [BASE_FLOWS_N] are, [float]s, or both.  Two
    [int]s add exactly, with no bound; an [int] that meets a [float] is
    converted first, which raises [OverflowError] for an [int] beyond the
    floats; [<] between an [int] and a [float] compares the exact values
    and raises nothing. *)

Definition pynum_add (a b : pynum) : result pynum :=
  match a, b with
  | PyInt x, PyInt y => Ok (PyInt (x + y)%Z)
  | _, _ => fa ← as_float a; fb ← as_float b; Ok (PyFloat (add fa fb))
  end.

Definition pynum_sub (a b : pynum) : result pynum :=
  match a, b with
  | PyInt x, PyInt y => Ok (PyInt (x - y)%Z)
  | _, _ => fa ← as_float a; fb ← as_float b; Ok (PyFloat (sub fa fb))
  end.

(** [x < f] and [f < x] for an [int] [x] and a [float] [f]. *)
Definition int_lt_float (x : Z) (f : spec_float) : bool :=
  match f with
  | S754_nan => false
  | S754_infinity s => negb s
  | _ =>
      match b64_to_Q f with
      | Some q => negb (Qle_bool q (inject_Z x))
      | None => false
      end
  end.

Definition float_lt_int (f : spec_float) (x : Z) : bool :=
  match f with
  | S754_nan => false
  | S754_infinity s => s
  | _ =>
      match b64_to_Q f with
      | Some q => negb (Qle_bool (inject_Z x) q)
      | None => false
      end
  end.

Definition pynum_lt (a b : pynum) : bool :=
  match a, b with
  | PyInt x, PyInt y => (x <? y)%Z
  | PyFloat f, PyFloat g => lt f g
  | PyInt x, PyFloat g => int_lt_float x g
  | PyFloat f, PyInt y => float_lt_int f y
  end.

(** The builtin [min(a, b)] on such numbers. *)
Definition pynum_min (a b : pynum) : pynum := if pynum_lt b a then b else a.

Definition Metrics_map {A B : Type} (f : A -> B) (m : Metrics A) : Metrics B :=
  {| input_N := f (input_N m); circular_N := f (circular_N m);
     accessible_N := f (accessible_N m); lost_N := f (lost_N m);
     env_loss := f (env_loss m); locked_stable := f (locked_stable m) |}.

(** [Cascading_app.py] on Python's own numbers: the baseline table as the
    module writes it, and the metrics function statement by statement, each
    subscript and each addition in the order Python evaluates them. *)
Module Py.

Definition BASE_FLOWS_N : gmap string pynum :=
  list_to_map
    [ ("F1", PyInt 4800); ("F2", PyInt 800); ("F3", PyInt 300); ("F4", PyInt 0);
      ("F5", PyInt 2400); ("F6", PyInt 2400); ("F7", PyInt 900);
      ("F8", PyInt 1900); ("F9", PyInt 200); ("F10", PyInt 300);
      ("F11", PyInt 1300); ("F12", PyInt 300); ("F13", PyInt 300);
      ("F14", PyInt 0); ("F15", PyInt 800); ("F16", PyInt 500);
      ("F17", PyInt 200); ("F18", PyInt 50); ("F19", PyInt 100);
      ("F20", PyInt 50) ].

Definition ACCESSIBLE_TARGET : pynum := PyFloat (num 50).

Definition compute_circularity_metrics_N (flows : gmap string pynum)
  : result (Metrics pynum) :=
  f1 ← getitem flows "F1"; f3 ← getitem flows "F3"; s ← pynum_add f1 f3;
  f4 ← getitem flows "F4"; input ← pynum_add s f4;
  f5 ← getitem flows "F5"; f19 ← getitem flows "F19";
  pig_exports ← pynum_add f5 f19;
  grain_exports ← getitem flows "F16";
  circular ← pynum_add pig_exports grain_exports;
  i4 ← getitem flows "F4"; i8 ← getitem flows "F8"; s ← pynum_add i4 i8;
  i14 ← getitem flows "F14"; s ← pynum_add s i14;
  i18 ← getitem flows "F18"; C7_in ← pynum_add s i18;
  let accessible := pynum_min ACCESSIBLE_TARGET C7_in in
  f7 ← getitem flows "F7"; f10 ← getitem flows "F10"; s ← pynum_add f7 f10;
  f12 ← getitem flows "F12"; s ← pynum_add s f12;
  f20 ← getitem flows "F20"; env ← pynum_add s f20;
  f9 ← getitem flows "F9"; f13 ← getitem flows "F13"; s ← pynum_add f9 f13;
  f14 ← getitem flows "F14"; locked ← pynum_sub s f14;
  lost ← pynum_add env locked;
  mret {| input_N := input; circular_N := circular; accessible_N := accessible;
          lost_N := lost; env_loss := env; locked_stable := locked |}.

End Py.

(** The metrics function of [interactive_app.py], [app.py] and
    [dply_interact_app.py] on Python's own numbers; the constants [50.0]
    and [500.0] are floats. *)
Module PyInteractive.

Definition compute_circularity_metrics_N (flows : gmap string pynum)
  : result (Metrics pynum) :=
  f1 ← getitem flows "F1"; f3 ← getitem flows "F3"; s ← pynum_add f1 f3;
  f4 ← getitem flows "F4"; input ← pynum_add s f4;
  f5 ← getitem flows "F5"; f19 ← getitem flows "F19";
  pig_exports ← pynum_add f5 f19;
  grain_exports ← getitem flows "F16";
  circular ← pynum_add pig_exports grain_exports;
  let accessible := PyFloat (num 50) in
  f7 ← getitem flows "F7"; f10 ← getitem flows "F10"; s ← pynum_add f7 f10;
  f12 ← getitem flows "F12"; s ← pynum_add s f12;
  f20 ← getitem flows "F20"; env ← pynum_add s f20;
  let locked := PyFloat (num 500) in
  lost ← pynum_add env locked;
  mret {| input_N := input; circular_N := circular; accessible_N := accessible;
          lost_N := lost; env_loss := env; locked_stable := locked |}.

End PyInteractive.

(** *** Tests on binary64 runs *)

(** [f] is a finite float and stands for the rational [q]. *)
Definition b64_value (f : spec_float) (q : Q) : Prop :=
  exists q', b64_to_Q f = Some q' /\ q' == q.

Definition b64_is (f : spec_float) (q : Q) : bool :=
  match b64_to_Q f with
  | Some q' => Qeq_bool q' q
  | None => false
  end.

(** The six metrics of a run at the integer percent [z] against their
    closed forms. *)
Definition b64_metrics_closed (m : Metrics spec_float) (z : Z) : bool :=
  b64_is (input_N m) 5100
  && b64_is (circular_N m) (3000 + (15 # 8) * inject_Z z)
  && b64_is (accessible_N m) 50
  && b64_is (env_loss m) (1550 - (27 # 4) * inject_Z z)
  && b64_is (locked_stable m) (500 + (15 # 8) * inject_Z z)
  && b64_is (lost_N m) (2050 - (39 # 8) * inject_Z z).

(** The soil-available inflow of a run at [z], as the callback has it and
    as it is read back from the table, the cap and the remainder. *)
Definition b64_inflow_closed (s : Scenario spec_float) (z : Z) : bool :=
  b64_is (C7_in s) (1950 + (7125 # 1000) * inject_Z z)
  && b64_identical
       (add (add (add (flow (flows s) "F4") (flow (flows s) "F8"))
                 (flow (flows s) "F14")) (flow (flows s) "F18"))
       (C7_in s)
  && b64_identical (accessible_N (metrics s)) (num 50)
  && SFltb (num 0) (outflow_from_C7 s).

(** Crops to feed F15 against the feed F2 that is passed on. *)
Definition b64_feed_gap (s : Scenario spec_float) (z : Z) : bool :=
  b64_is (flow (flows s) "F15") (800 + 3 * inject_Z z)
  && b64_is (flow (flows s) "F2") 800.

(** The three bars of a run at [z] sum to [100 - z / 17] within [1e-9]. *)
Definition b64_bars_close (bars : list spec_float) (z : Z) : bool :=
  match bars with
  | [c; a; l] =>
      match b64_to_Q c, b64_to_Q a, b64_to_Q l with
      | Some qc, Some qa, Some ql =>
          Qle_bool (Qabs (qc + qa + ql - (100 - inject_Z z / 17))) (1 # 1000000000)
      | _, _, _ => false
      end
  | _ => false
  end.

Definition b64_metrics_at (z : Z) : bool :=
  match update_scenario (T := spec_float) (num z) with
  | Ok s => b64_metrics_closed (metrics s) z && b64_inflow_closed s z && b64_feed_gap s z
  | Raise _ => false
  end.

Definition b64_bars_at (z : Z) : bool :=
  match update_scenario_figures (T := spec_float) (num z) with
  | Ok (s, fig, bars) => b64_bars_close bars z
  | Raise _ => false
  end.

(** The fractions of the module as floats: each group sums to [1.0]. *)
Definition b64_fractions_whole (P : Partitions spec_float) : bool :=
  SFeqb (add (add (P_F8 P) (P_F9 P)) (P_F10 P)) (num 1)
  && SFeqb (add (add (P_F11 P) (P_F12 P)) (P_F13 P)) (num 1)
  && SFeqb (add (P_F15 P) (P_F16 P)) (num 1).

(** Any two positions of the slider: at the larger one F7 is smaller and
    F6 larger. *)
Definition b64_ordered_at (z1 : Z) : bool :=
  forallb
    (fun z2 =>
       if (z2 <=? z1)%Z then true
       else SFltb (run_F7 (num z2)) (run_F7 (num z1))
            && SFltb (run_F6 (num z1)) (run_F6 (num z2)))
    (Z_below 101).

(** The tenths [0.0, 0.1, .. 100.0], as [k / 10] gives them. *)
Definition b64_tenth (k : Z) : spec_float := div (num k) (num 10).

(** The exact sum of finite floats. *)
Fixpoint b64_sum (l : list spec_float) : option Q :=
  match l with
  | [] => Some 0
  | f :: l =>
      match b64_to_Q f, b64_sum l with
      | Some q, Some r => Some (q + r)
      | _, _ => None
      end
  end.

(** Two sums of finite floats are within [1e-9] of each other. *)
Definition b64_balanced (l r : list spec_float) : Prop :=
  exists a b, b64_sum l = Some a /\ b64_sum r = Some b /\
    Qabs (a - b) <= 1 # 1000000000.

Definition b64_close (l r : list spec_float) : bool :=
  match b64_sum l, b64_sum r with
  | Some a, Some b => Qle_bool (Qabs (a - b)) (1 # 1000000000)
  | _, _ => false
  end.

(** The conservation equalities of a binary64 run, within [1e-9]. *)
Definition b64_conserves_within (s : Scenario spec_float) : bool :=
  let f := flow (flows s) in
  b64_close [f "F7"; f "F6"] [num 3300]
  && b64_close [f "F8"; f "F9"; f "F10"] [f "F6"]
  && b64_close [f "F15"; f "F16"] [f "F11"]
  && b64_close [f "F11"; f "F12"; f "F13"; accessible_pool s]
               [f "F4"; f "F8"; f "F14"; f "F18"].

(** The cap of a binary64 run: the inflow is above 50, the pool and the
    metric are [50.0], the remainder is above 0. *)
Definition b64_capped (s : Scenario spec_float) : bool :=
  SFltb (num 50) (C7_in s)
  && b64_identical (accessible_pool s) (num 50)
  && b64_identical (accessible_N (metrics s)) (num 50)
  && SFltb (num 0) (outflow_from_C7 s).

Definition b64_tenth_at (k : Z) : bool :=
  match update_scenario (T := spec_float) (b64_tenth k) with
  | Ok s => b64_conserves_within s && b64_capped s
  | Raise _ => false
  end.

(** * Properties *)

(** ** The callback, run: facts that hold for any numbers *)

Section ProgramFacts.

Context {T : Type} `{PyNumber T}.

Variable P : Partitions T.
Variable percent : T.

Lemma update_scenario_with_run :
  is_zero (num 100) = false ->
  update_scenario_with P percent = Ok (run P percent).
Proof.
  intros Hz. unfold update_scenario_with, truediv. rewrite Hz.
  vm_compute. reflexivity.
Qed.

Lemma flow_run_F1 : flow (run_flows P percent) "F1" = num 4800.
Proof. reflexivity. Qed.

Lemma flow_run_F2 : flow (run_flows P percent) "F2" = num 800.
Proof. reflexivity. Qed.

Lemma flow_run_F3 : flow (run_flows P percent) "F3" = num 300.
Proof. reflexivity. Qed.

Lemma flow_run_F4 : flow (run_flows P percent) "F4" = num 0.
Proof. reflexivity. Qed.

Lemma flow_run_F5 : flow (run_flows P percent) "F5" = num 2400.
Proof. reflexivity. Qed.

Lemma flow_run_F6 : flow (run_flows P percent) "F6" = run_F6 percent.
Proof. reflexivity. Qed.

Lemma flow_run_F7 : flow (run_flows P percent) "F7" = run_F7 percent.
Proof. reflexivity. Qed.

Lemma flow_run_F8 : flow (run_flows P percent) "F8" = run_F8 P percent.
Proof. reflexivity. Qed.

Lemma flow_run_F9 : flow (run_flows P percent) "F9" = run_F9 P percent.
Proof. reflexivity. Qed.

Lemma flow_run_F10 : flow (run_flows P percent) "F10" = run_F10 P percent.
Proof. reflexivity. Qed.

Lemma flow_run_F11 : flow (run_flows P percent) "F11" = run_F11 P percent.
Proof. reflexivity. Qed.

Lemma flow_run_F12 : flow (run_flows P percent) "F12" = run_F12 P percent.
Proof. reflexivity. Qed.

Lemma flow_run_F13 : flow (run_flows P percent) "F13" = run_F13 P percent.
Proof. reflexivity. Qed.

Lemma flow_run_F14 : flow (run_flows P percent) "F14" = num 0.
Proof. reflexivity. Qed.

Lemma flow_run_F15 : flow (run_flows P percent) "F15" = run_F15 P percent.
Proof. reflexivity. Qed.

Lemma flow_run_F16 : flow (run_flows P percent) "F16" = run_F16 P percent.
Proof. reflexivity. Qed.

Lemma flow_run_F17 : flow (run_flows P percent) "F17" = num 200.
Proof. reflexivity. Qed.

Lemma flow_run_F18 : flow (run_flows P percent) "F18" = num 50.
Proof. reflexivity. Qed.

Lemma flow_run_F19 : flow (run_flows P percent) "F19" = num 100.
Proof. reflexivity. Qed.

Lemma flow_run_F20 : flow (run_flows P percent) "F20" = num 50.
Proof. reflexivity. Qed.

Lemma compute_metrics_run :
  compute_circularity_metrics_N (run_flows P percent) = Ok (run_metrics P percent).
Proof. vm_compute. reflexivity. Qed.

Lemma run_flows_kept (k : string) :
  k ∈ KEPT_KEYS -> run_flows P percent !! k = BASE_FLOWS_N !! k.
Proof.
  intros Hk. unfold KEPT_KEYS in Hk.
  repeat (apply elem_of_cons in Hk as [-> | Hk]; [vm_compute; reflexivity |]).
  by apply elem_of_nil in Hk.
Qed.

Lemma run_flows_dom : dom (run_flows P percent) = list_to_set FLOW_KEYS.
Proof. unfold run_flows. rewrite dom_list_to_map_L. reflexivity. Qed.

Lemma BASE_FLOWS_N_dom : dom (BASE_FLOWS_N (T := T)) = list_to_set FLOW_KEYS.
Proof. unfold BASE_FLOWS_N. rewrite dom_list_to_map_L. reflexivity. Qed.

End ProgramFacts.

Create Rewrite HintDb flow_run.

#[export] Hint Rewrite @flow_run_F1 @flow_run_F2 @flow_run_F3 @flow_run_F4
  @flow_run_F5 @flow_run_F6 @flow_run_F7 @flow_run_F8 @flow_run_F9
  @flow_run_F10 @flow_run_F11 @flow_run_F12 @flow_run_F13 @flow_run_F14
  @flow_run_F15 @flow_run_F16 @flow_run_F17 @flow_run_F18 @flow_run_F19
  @flow_run_F20 : flow_run.

(** ** Exact arithmetic: the cascade on rationals *)

Lemma partition_fractions_baseline :
  partition_fractions BASE_FLOWS_N = Ok FRACTIONS.
Proof. vm_compute. reflexivity. Qed.

Lemma update_scenario_run (p : Q) :
  update_scenario p = Ok (run FRACTIONS p).
Proof.
  unfold update_scenario. rewrite partition_fractions_baseline.
  apply update_scenario_with_run. reflexivity.
Qed.

Lemma py_min_Qmin (a b : Q) : py_min a b == Qmin a b.
Proof.
  unfold py_min; cbn [lt Q_number].
  destruct (Qle_bool a b) eqn:E; cbn [negb].
  - apply Qle_bool_iff in E. symmetry. now apply Q.min_l.
  - assert (~ a <= b) by (rewrite <- Qle_bool_iff; congruence).
    symmetry. apply Q.min_r. lra.
Qed.

Lemma py_max_Qmax (a b : Q) : py_max a b == Qmax a b.
Proof.
  unfold py_max; cbn [lt Q_number].
  destruct (Qle_bool b a) eqn:E; cbn [negb].
  - apply Qle_bool_iff in E. symmetry. now apply Q.max_l.
  - assert (~ b <= a) by (rewrite <- Qle_bool_iff; congruence).
    symmetry. apply Q.max_r. lra.
Qed.

(** Division by the literal [100.0], in the form linear arithmetic reads. *)
Lemma Qdiv_100 (p : Q) : p / 100 == p * (1 # 100).
Proof. field. Qed.

(** Unfolds the assignments of the run down to rational arithmetic. *)
Ltac run_arith :=
  unfold run_F16, run_F15, run_F13, run_F12, run_F11, run_C7_in,
    run_F10, run_F9, run_F8, run_F6, run_delta, run_F7,
    run_reduction_factor, ACCESSIBLE_TARGET in *;
  cbn [add sub mul div num Q_number FRACTIONS
       P_F8 P_F9 P_F10 P_F11 P_F12 P_F13 P_F15 P_F16] in *;
  unfold inject_Z in *.

Lemma run_C7_in_value (p : Q) : run_C7_in FRACTIONS p == 1950 + (57 # 8) * p.
Proof. pose proof (Qdiv_100 p). run_arith. lra. Qed.

(** From [percent >= 0] on the inflow exceeds the target, so [min] keeps
    its first argument, the target itself. *)
Lemma run_accessible_target (p : Q) :
  0 <= p -> run_accessible FRACTIONS p = 50.
Proof.
  intros Hp. pose proof (run_C7_in_value p) as Hc.
  unfold run_accessible, py_min. cbn [lt Q_number].
  replace (Qle_bool ACCESSIBLE_TARGET (run_C7_in FRACTIONS p)) with true; [reflexivity |].
  symmetry. apply Qle_bool_iff. unfold ACCESSIBLE_TARGET. cbn [num Q_number]. unfold inject_Z. lra.
Qed.

Lemma run_outflow_value (p : Q) :
  0 <= p -> run_outflow FRACTIONS p = run_C7_in FRACTIONS p - 50.
Proof.
  intros Hp. pose proof (run_C7_in_value p) as Hc.
  unfold run_outflow. rewrite (run_accessible_target p Hp).
  unfold py_max. cbn [lt sub num Q_number]. unfold inject_Z.
  replace (Qle_bool 0 (run_C7_in FRACTIONS p - 50)) with true; [reflexivity |].
  symmetry. apply Qle_bool_iff. lra.
Qed.

(** Conservation of mass in exact arithmetic: for every rational percent
    in [0,100] the table of the cascade keeps F7 + F6 at the baseline sum,
    splits F6 into F8 + F9 + F10 and F11 into F15 + F16, and at the
    soil-available compartment F11 + F12 + F13 plus the capped pool
    min(50, inflow) is the inflow F4 + F8 + F14 + F18. *)
Lemma conservation_of_mass_exact (p : Q) :
  0 <= p <= 100 ->
  exists s, update_scenario p = Ok s /\
    flow (flows s) "F7" + flow (flows s) "F6"
      == flow BASE_FLOWS_N "F7" + flow BASE_FLOWS_N "F6" /\
    flow (flows s) "F8" + flow (flows s) "F9" + flow (flows s) "F10"
      == flow (flows s) "F6" /\
    flow (flows s) "F15" + flow (flows s) "F16" == flow (flows s) "F11" /\
    flow (flows s) "F11" + flow (flows s) "F12" + flow (flows s) "F13"
      + Qmin 50 (inflow_C7 (flows s)) == inflow_C7 (flows s).
Proof.
  intros [Hp _]. exists (run FRACTIONS p). split; [apply update_scenario_run |].
  pose proof (Qdiv_100 p) as Hd.
  pose proof (run_C7_in_value p) as Hc.
  pose proof (run_outflow_value p Hp) as Ho.
  unfold inflow_C7. cbn [flows run]. autorewrite with flow_run.
  change (flow BASE_FLOWS_N "F7") with 900.
  change (flow BASE_FLOWS_N "F6") with 2400.
  repeat split.
  - run_arith. lra.
  - run_arith. lra.
  - run_arith. lra.
  - unfold run_F11, run_F12, run_F13. rewrite Ho.
    cbn [num Q_number]. unfold inject_Z.
    change (0 + run_F8 FRACTIONS p + 0 + 50) with (run_C7_in FRACTIONS p).
    rewrite Q.min_l by lra.
    cbn [add sub mul FRACTIONS P_F11 P_F12 P_F13 Q_number]. lra.
Qed.

(** C2. Identity at zero perturbation: with percent = 0 the cascade
    returns a table with the baseline's twenty keys and the baseline's
    magnitude at each of them, and the metrics computed from it have
    input 5100 and circular 3000. *)
Theorem zero_perturbation_identity :
  exists s, update_scenario 0 = Ok s /\
    dom (flows s) = dom (BASE_FLOWS_N (T := Q)) /\
    (forall k, flow (flows s) k == flow BASE_FLOWS_N k) /\
    compute_circularity_metrics_N (flows s) = Ok (metrics s) /\
    input_N (metrics s) == 5100 /\
    circular_N (metrics s) == 3000.
Proof.
  exists (run FRACTIONS 0). split; [apply update_scenario_run |].
  cbn [flows run metrics]. split; [| split; [| split; [| split]]].
  - etrans; [apply run_flows_dom | symmetry; apply BASE_FLOWS_N_dom].
  - intros k. destruct (decide (k ∈ FLOW_KEYS)) as [Hk | Hk].
    + unfold FLOW_KEYS in Hk.
      repeat (apply elem_of_cons in Hk as [-> | Hk]; [vm_compute; reflexivity |]).
      by apply elem_of_nil in Hk.
    + assert (Hr : run_flows FRACTIONS 0 !! k = None).
      { apply not_elem_of_dom. rewrite run_flows_dom. by rewrite elem_of_list_to_set. }
      assert (Hb : BASE_FLOWS_N (T := Q) !! k = None).
      { apply not_elem_of_dom. rewrite BASE_FLOWS_N_dom. by rewrite elem_of_list_to_set. }
      unfold flow. rewrite Hr, Hb. reflexivity.
  - vm_compute. reflexivity.
  - vm_compute. reflexivity.
  - vm_compute. reflexivity.
Qed.

Ltac key_in_list := apply (bool_decide_unpack _); vm_compute; exact I.

Lemma READ_KEYS_FLOW_KEYS (k : string) : k ∈ READ_KEYS -> k ∈ FLOW_KEYS.
Proof.
  intros Hin. unfold READ_KEYS in Hin.
  repeat (apply elem_of_cons in Hin as [-> | Hin]; [key_in_list |]).
  by apply elem_of_nil in Hin.
Qed.

(** The metrics function on a table that holds the keys it reads. *)
Lemma compute_metrics_accessible (t : gmap string Q) :
  has_keys t READ_KEYS ->
  exists m, compute_circularity_metrics_N t = Ok m /\
    accessible_N m = py_min 50 (inflow_C7 t).
Proof.
  intros Hk.
  assert (Hget : forall k, k ∈ READ_KEYS -> getitem t k = Ok (flow t k)).
  { intros k Hin. destruct (Hk k Hin) as [v Hv]. unfold getitem, flow. by rewrite Hv. }
  unfold compute_circularity_metrics_N.
  rewrite !Hget by key_in_list.
  eexists. split; [reflexivity |]. reflexivity.
Qed.

(** C3. Accessible cap: on any table holding the twenty keys, and so on
    the output of the cascade for every percent in [0,100],
    the metrics function returns accessible = min(50, F4 + F8 + F14 + F18)
    with the inflow read from the table it is given; accessible never
    exceeds 50. *)
Theorem accessible_cap (t : gmap string Q) (p : Q) :
  has_keys t FLOW_KEYS ->
  0 <= p <= 100 ->
  (exists m, compute_circularity_metrics_N t = Ok m /\
     accessible_N m == Qmin 50 (inflow_C7 t) /\
     accessible_N m <= 50) /\
  (exists s, update_scenario p = Ok s /\
     compute_circularity_metrics_N (flows s) = Ok (metrics s) /\
     accessible_N (metrics s) == Qmin 50 (inflow_C7 (flows s)) /\
     accessible_N (metrics s) <= 50).
Proof.
  intros Hk Hp.
  assert (Hcap : forall u : gmap string Q, has_keys u FLOW_KEYS ->
    exists m, compute_circularity_metrics_N u = Ok m /\
      accessible_N m == Qmin 50 (inflow_C7 u) /\ accessible_N m <= 50).
  { intros u Hu.
    destruct (compute_metrics_accessible u) as (m & Hm & Ha).
    { intros k Hin. apply Hu. by apply READ_KEYS_FLOW_KEYS. }
    exists m. split; [exact Hm |]. rewrite Ha, py_min_Qmin.
    split; [reflexivity | apply Q.le_min_l]. }
  split; [by apply Hcap |].
  exists (run FRACTIONS p). split; [apply update_scenario_run |].
  cbn [flows run metrics].
  destruct (Hcap (run_flows FRACTIONS p)) as (m & Hm & Ha).
  { intros k Hin. apply elem_of_dom. rewrite run_flows_dom.
    by apply elem_of_list_to_set. }
  rewrite compute_metrics_run in Hm. injection Hm as <-. by split.
Qed.

Lemma BASE_FLOWS_N_has_keys : has_keys (BASE_FLOWS_N (T := Q)) FLOW_KEYS.
Proof.
  intros k Hk. apply elem_of_dom.
  replace (dom (BASE_FLOWS_N (T := Q))) with (list_to_set FLOW_KEYS : gset string)
    by (symmetry; apply BASE_FLOWS_N_dom).
  by apply elem_of_list_to_set.
Defined.

Lemma accessible_cap_witness :
  has_keys (BASE_FLOWS_N (T := Q)) FLOW_KEYS /\
  0 <= 5 <= 100 /\
  (exists m, compute_circularity_metrics_N (BASE_FLOWS_N (T := Q)) = Ok m /\
     accessible_N m == Qmin 50 (inflow_C7 BASE_FLOWS_N) /\
     accessible_N m <= 50) /\
  (exists s, update_scenario 5 = Ok s /\
     compute_circularity_metrics_N (flows s) = Ok (metrics s) /\
     accessible_N (metrics s) == Qmin 50 (inflow_C7 (flows s)) /\
     accessible_N (metrics s) <= 50).
Proof.
  assert (Hr : 0 <= 5 <= 100) by (split; discriminate).
  split; [exact BASE_FLOWS_N_has_keys |].
  split; [exact Hr |].
  exact (accessible_cap BASE_FLOWS_N 5 BASE_FLOWS_N_has_keys Hr).
Defined.

(** Two magnitudes with a positive second one that are proportional to
    [c : d] are in that ratio exactly, hence within the tolerance. *)
Lemma ratio_within_exact (a b c d : Q) :
  0 < b -> 0 < d -> a * d == c * b -> ratio_within a b c d.
Proof.
  intros Hb Hd Heq. unfold ratio_within.
  assert (Hz : a / b - c / d == 0).
  { assert (E : a / b == c / d).
    { apply (Qmult_inj_r _ _ (b * d)); [nra |].
      transitivity (a * d); [field; lra |].
      rewrite Heq. field. lra. }
    rewrite E. ring. }
  rewrite Hz. discriminate.
Qed.

(** C4. Partition fidelity: for every percent in [0,100] the outflows of
    manure storage F8 : F9 : F10 keep the baseline ratios 1900 : 200 : 300,
    those of soil-available F11 : F12 : F13 keep 1300 : 300 : 300 and those
    of crops F15 : F16 keep 800 : 500, each within 1e-9. *)
Theorem partition_fidelity (p : Q) :
  0 <= p <= 100 ->
  exists s, update_scenario p = Ok s /\
    ratio_within (flow (flows s) "F8") (flow (flows s) "F9") 1900 200 /\
    ratio_within (flow (flows s) "F8") (flow (flows s) "F10") 1900 300 /\
    ratio_within (flow (flows s) "F9") (flow (flows s) "F10") 200 300 /\
    ratio_within (flow (flows s) "F11") (flow (flows s) "F12") 1300 300 /\
    ratio_within (flow (flows s) "F11") (flow (flows s) "F13") 1300 300 /\
    ratio_within (flow (flows s) "F12") (flow (flows s) "F13") 300 300 /\
    ratio_within (flow (flows s) "F15") (flow (flows s) "F16") 800 500.
Proof.
  intros [Hp _]. exists (run FRACTIONS p). split; [apply update_scenario_run |].
  pose proof (Qdiv_100 p) as Hd.
  pose proof (run_C7_in_value p) as Hc.
  pose proof (run_outflow_value p Hp) as Ho.
  cbn [flows run]. autorewrite with flow_run.
  assert (H6 : run_F6 p == 2400 + 9 * p) by (run_arith; lra).
  assert (Hout : run_outflow FRACTIONS p == 1900 + (57 # 8) * p) by (rewrite Ho; lra).
  unfold run_F15, run_F16, run_F11, run_F12, run_F13, run_F8, run_F9, run_F10.
  cbn [add sub mul div num Q_number FRACTIONS
       P_F8 P_F9 P_F10 P_F11 P_F12 P_F13 P_F15 P_F16].
  repeat split; apply ratio_within_exact; lra.
Qed.

Lemma partition_fidelity_witness :
  0 <= 5 <= 100 /\
  exists s, update_scenario 5 = Ok s /\
    ratio_within (flow (flows s) "F8") (flow (flows s) "F9") 1900 200 /\
    ratio_within (flow (flows s) "F8") (flow (flows s) "F10") 1900 300 /\
    ratio_within (flow (flows s) "F9") (flow (flows s) "F10") 200 300 /\
    ratio_within (flow (flows s) "F11") (flow (flows s) "F12") 1300 300 /\
    ratio_within (flow (flows s) "F11") (flow (flows s) "F13") 1300 300 /\
    ratio_within (flow (flows s) "F12") (flow (flows s) "F13") 300 300 /\
    ratio_within (flow (flows s) "F15") (flow (flows s) "F16") 800 500.
Proof.
  assert (Hr : 0 <= 5 <= 100) by (split; discriminate).
  split; [exact Hr | exact (partition_fidelity 5 Hr)].
Defined.

(** C5. The cascade at percent = 5: delta is 45, the housing loss F7 is
    855, the excretion F6 is 2445 and the storage outflows F8, F9, F10 are
    2445 times the baseline fractions 1900/2400, 200/2400 and 300/2400. *)
Theorem cascade_at_five_percent :
  exists s, update_scenario 5 = Ok s /\
    delta s == 45 /\
    flow (flows s) "F7" == 855 /\
    flow (flows s) "F6" == 2445 /\
    flow (flows s) "F8" == 2445 * (1900 / 2400) /\
    flow (flows s) "F9" == 2445 * (200 / 2400) /\
    flow (flows s) "F10" == 2445 * (300 / 2400).
Proof.
  exists (run FRACTIONS 5). split; [apply update_scenario_run |].
  repeat split; vm_compute; reflexivity.
Qed.

(** C6. Frame condition: for every percent in [0,100] the flows the
    cascade does not assign - F1, F2, F3, F4, F5, F14, F17, F18, F19 and
    F20 - hold their baseline values in the output table. *)
Theorem frame_condition (p : Q) :
  0 <= p <= 100 ->
  exists s, update_scenario p = Ok s /\
    forall k, k ∈ ["F1"; "F2"; "F3"; "F4"; "F5"; "F19"; "F14"; "F17"; "F18"; "F20"] ->
      flows s !! k = BASE_FLOWS_N !! k /\ is_Some (flows s !! k).
Proof.
  intros _. exists (run FRACTIONS p). split; [apply update_scenario_run |].
  intros k Hk. cbn [flows run].
  assert (Hkept : k ∈ KEPT_KEYS).
  { repeat (apply elem_of_cons in Hk as [-> | Hk]; [key_in_list |]).
    by apply elem_of_nil in Hk. }
  split; [by apply run_flows_kept |].
  apply elem_of_dom.
  replace (dom (run_flows FRACTIONS p)) with (list_to_set FLOW_KEYS : gset string)
    by (symmetry; apply run_flows_dom).
  apply elem_of_list_to_set. clear Hkept.
  repeat (apply elem_of_cons in Hk as [-> | Hk]; [key_in_list |]).
  by apply elem_of_nil in Hk.
Qed.

Lemma frame_condition_witness :
  0 <= 5 <= 100 /\
  exists s, update_scenario 5 = Ok s /\
    forall k, k ∈ ["F1"; "F2"; "F3"; "F4"; "F5"; "F19"; "F14"; "F17"; "F18"; "F20"] ->
      flows s !! k = BASE_FLOWS_N !! k /\ is_Some (flows s !! k).
Proof.
  assert (Hr : 0 <= 5 <= 100) by (split; discriminate).
  split; [exact Hr | exact (frame_condition 5 Hr)].
Defined.

(** C7 as stated fails: at percent = 150, outside [0,100], the cascade
    signals nothing and returns a table, whose housing loss F7 is -450;
    so it is in exact arithmetic, and so it is on the floats when the
    slider's [int] 150 comes in, with F7 the float -450.0. *)
Lemma invalid_percent_not_rejected :
  (~ (0 <= 150 <= 100) /\
   exists s, update_scenario 150 = Ok s /\ flow (flows s) "F7" == -450) /\
  (exists s, update_scenario_py (PyInt 150) = Ok s /\
     flow (flows s) "F7" = num (-450)).
Proof.
  split; [split |].
  - intros [_ Hle]. apply Hle. reflexivity.
  - exists (run FRACTIONS 150). split; [apply update_scenario_run |].
    vm_compute. reflexivity.
  - exists (run B64_FRACTIONS (num 150)).
    split; [vm_compute; reflexivity | vm_compute; reflexivity].
Qed.

(** The accessible metric in exact arithmetic: for every rational percent
    in [0,100] the soil-available inflow of the output is
    1950 + 7.125 * percent, above the cap of 50, so the metrics of the
    output, like those of the baseline, have accessible = 50, and the
    remainder that is redistributed is strictly positive. *)
Lemma accessible_constant_exact (p : Q) :
  0 <= p <= 100 ->
  exists s, update_scenario p = Ok s /\
    inflow_C7 (flows s) == 1950 + (7125 # 1000) * p /\
    C7_in s == inflow_C7 (flows s) /\
    50 < inflow_C7 (flows s) /\
    (exists m, compute_circularity_metrics_N (flows s) = Ok m /\
       accessible_N m == 50) /\
    accessible_N (metrics s) == 50 /\
    0 < outflow_from_C7 s /\
    (exists m0, compute_circularity_metrics_N (BASE_FLOWS_N (T := Q)) = Ok m0 /\
       accessible_N m0 == 50).
Proof.
  intros [Hp _]. exists (run FRACTIONS p). split; [apply update_scenario_run |].
  pose proof (run_C7_in_value p) as Hc.
  pose proof (run_outflow_value p Hp) as Ho.
  pose proof (run_accessible_target p Hp) as Ha.
  assert (Hin : inflow_C7 (run_flows FRACTIONS p) = run_C7_in FRACTIONS p) by reflexivity.
  assert (Hm : accessible_N (run_metrics FRACTIONS p) = run_accessible FRACTIONS p)
    by reflexivity.
  cbn [flows run C7_in outflow_from_C7 metrics]. rewrite Hin, Hm, Ha, Ho.
  split; [lra |]. split; [reflexivity |]. split; [lra |].
  split.
  { exists (run_metrics FRACTIONS p). split; [apply compute_metrics_run |].
    rewrite Hm, Ha. reflexivity. }
  split; [reflexivity |]. split; [lra |].
  eexists. split; [vm_compute; reflexivity | reflexivity].
Qed.

(** ** Errors of the fraction derivation and of the metrics, for any numbers *)

Section ErrorFacts.

Context {T : Type} `{PyNumber T}.

Local Open Scope py_scope.

Lemma getitem_has_keys (t : gmap string T) (ks : list string) (k : string) :
  has_keys t ks -> k ∈ ks -> getitem t k = Ok (flow t k).
Proof.
  intros Hk Hin. destruct (Hk k Hin) as [v Hv].
  unfold getitem, flow. by rewrite Hv.
Qed.

(** The derivation on a table that holds the keys it reads: the first
    zero divisor, in the order storage, soil, crops, ends it. *)
Lemma partition_fractions_cases (base : gmap string T) :
  has_keys base PARTITION_KEYS ->
  let storage := flow base "F8" + flow base "F9" + flow base "F10" in
  let soil := flow base "F11" + flow base "F12" + flow base "F13" in
  let crop := flow base "F11" in
  partition_fractions base =
    if is_zero storage || is_zero soil || is_zero crop
    then Raise ZeroDivisionError
    else Ok {| P_F8 := div (flow base "F8") storage;
               P_F9 := div (flow base "F9") storage;
               P_F10 := div (flow base "F10") storage;
               P_F11 := div (flow base "F11") soil;
               P_F12 := div (flow base "F12") soil;
               P_F13 := div (flow base "F13") soil;
               P_F15 := div (flow base "F15") crop;
               P_F16 := div (flow base "F16") crop |}.
Proof.
  intros Hk. cbv zeta. unfold partition_fractions.
  rewrite !(getitem_has_keys base PARTITION_KEYS) by (done || key_in_list).
  unfold truediv. cbn [mbind result_bind mret result_ret].
  destruct (is_zero (flow base "F8" + flow base "F9" + flow base "F10"));
    [reflexivity |]. cbn [mbind result_bind orb].
  destruct (is_zero (flow base "F11" + flow base "F12" + flow base "F13"));
    [reflexivity |]. cbn [mbind result_bind orb].
  destruct (is_zero (flow base "F11")); reflexivity.
Qed.

(** A result of the metrics function means every key it reads was there. *)
Lemma compute_metrics_ok_keys (t : gmap string T) (m : Metrics T) :
  compute_circularity_metrics_N t = Ok m -> has_keys t READ_KEYS.
Proof.
  unfold compute_circularity_metrics_N, getitem. intros Hm k Hin.
  repeat match type of Hm with
  | context [ t !! ?key ] =>
      destruct (t !! key) eqn:?; cbn [mbind result_bind] in Hm; [| discriminate Hm]
  end.
  unfold READ_KEYS in Hin.
  repeat (apply elem_of_cons in Hin as [-> | Hin]; [eauto |]).
  by apply elem_of_nil in Hin.
Qed.

(** An error of the metrics function is the [KeyError] of a key it reads
    and the table lacks. *)
Lemma compute_metrics_raise_key (t : gmap string T) (e : exn) :
  compute_circularity_metrics_N t = Raise e ->
  exists k, e = KeyError k /\ k ∈ READ_KEYS /\ t !! k = None.
Proof.
  unfold compute_circularity_metrics_N, getitem. intros Hm.
  repeat match type of Hm with
  | context [ t !! ?key ] =>
      destruct (t !! key) eqn:?; cbn [mbind result_bind] in Hm;
      [| injection Hm as <-; exists key; split; [reflexivity | split; [key_in_list | assumption]]]
  end.
  discriminate Hm.
Qed.

Lemma compute_metrics_has_keys (t : gmap string T) :
  has_keys t READ_KEYS -> exists m, compute_circularity_metrics_N t = Ok m.
Proof.
  intros Hk. unfold compute_circularity_metrics_N.
  rewrite !(getitem_has_keys t READ_KEYS) by (done || key_in_list).
  eexists. reflexivity.
Qed.

End ErrorFacts.

(** ** Error behaviour *)

(** C8 as stated fails: on a baseline whose storage outflows F8, F9, F10
    are all 0 the derivation has no guard of its own; it divides, and what
    it signals is the [ZeroDivisionError] of [/]. *)
Lemma degenerate_baseline_unguarded :
  let base : gmap string Q :=
    <["F8" := 0]> (<["F9" := 0]> (<["F10" := 0]> BASE_FLOWS_N)) in
  has_keys base FLOW_KEYS /\
  flow base "F8" + flow base "F9" + flow base "F10" == 0 /\
  partition_fractions base = Raise ZeroDivisionError /\
  ~ (exists e, partition_fractions base = Raise e /\ e <> ZeroDivisionError).
Proof.
  cbv zeta. split; [| split; [| split]].
  - intros k Hk. unfold FLOW_KEYS in Hk.
    repeat (apply elem_of_cons in Hk as [-> | Hk]; [vm_compute; eauto |]).
    by apply elem_of_nil in Hk.
  - vm_compute. reflexivity.
  - vm_compute. reflexivity.
  - intros (e & He & Hne). apply Hne.
    assert (Hr : partition_fractions
      (<["F8" := 0]> (<["F9" := 0]> (<["F10" := 0]> (BASE_FLOWS_N (T := Q)))))
      = Raise ZeroDivisionError) by (vm_compute; reflexivity).
    rewrite Hr in He. by injection He.
Qed.

(** C8, amended. On a baseline that holds the keys the derivation reads,
    a partition base equal to 0 - the storage outflow F8 + F9 + F10, the
    soil outflow F11 + F12 + F13, or the crop inflow F11 - makes the
    derivation end in the [ZeroDivisionError] of the division itself; no
    fraction is produced. *)
Theorem zero_partition_base_raises (base : gmap string Q) :
  has_keys base PARTITION_KEYS ->
  flow base "F8" + flow base "F9" + flow base "F10" == 0 \/
  flow base "F11" + flow base "F12" + flow base "F13" == 0 \/
  flow base "F11" == 0 ->
  partition_fractions base = Raise ZeroDivisionError.
Proof.
  intros Hk Hz. rewrite (partition_fractions_cases base Hk).
  cbn [is_zero add Q_number].
  replace (Qeq_bool (flow base "F8" + flow base "F9" + flow base "F10") 0
           || Qeq_bool (flow base "F11" + flow base "F12" + flow base "F13") 0
           || Qeq_bool (flow base "F11") 0) with true; [reflexivity |].
  symmetry. rewrite !orb_true_iff, !Qeq_bool_iff. tauto.
Qed.

Lemma zero_partition_base_raises_witness :
  let base : gmap string Q :=
    <["F8" := 0]> (<["F9" := 0]> (<["F10" := 0]> BASE_FLOWS_N)) in
  has_keys base PARTITION_KEYS /\
  (flow base "F8" + flow base "F9" + flow base "F10" == 0 \/
   flow base "F11" + flow base "F12" + flow base "F13" == 0 \/
   flow base "F11" == 0) /\
  partition_fractions base = Raise ZeroDivisionError.
Proof.
  cbv zeta.
  assert (Hk : has_keys
    (<["F8" := 0]> (<["F9" := 0]> (<["F10" := 0]> (BASE_FLOWS_N (T := Q)))))
    PARTITION_KEYS).
  { intros k Hin. unfold PARTITION_KEYS in Hin.
    repeat (apply elem_of_cons in Hin as [-> | Hin]; [vm_compute; eauto |]).
    by apply elem_of_nil in Hin. }
  assert (Hz :
    flow (<["F8" := 0]> (<["F9" := 0]> (<["F10" := 0]> (BASE_FLOWS_N (T := Q))))) "F8"
    + flow (<["F8" := 0]> (<["F9" := 0]> (<["F10" := 0]> (BASE_FLOWS_N (T := Q))))) "F9"
    + flow (<["F8" := 0]> (<["F9" := 0]> (<["F10" := 0]> (BASE_FLOWS_N (T := Q))))) "F10"
    == 0) by (vm_compute; reflexivity).
  split; [exact Hk |]. split; [left; exact Hz |].
  exact (zero_partition_base_raises _ Hk (or_introl Hz)).
Defined.

(** C9 as stated fails: the baseline table without the key F2 lacks a key
    of the twenty, yet the metrics function returns its result, on
    rationals and on floats alike. *)
Lemma missing_unread_key_no_error :
  let t : gmap string Q := delete "F2" BASE_FLOWS_N in
  let tb : gmap string spec_float := delete "F2" BASE_FLOWS_N in
  ("F2" ∈ FLOW_KEYS /\ t !! "F2" = None /\
   (exists m, compute_circularity_metrics_N t = Ok m) /\
   ~ (exists k, compute_circularity_metrics_N t = Raise (KeyError k))) /\
  (tb !! "F2" = None /\
   (exists m, compute_circularity_metrics_N tb = Ok m) /\
   ~ (exists k, compute_circularity_metrics_N tb = Raise (KeyError k))).
Proof.
  cbv zeta.
  assert (Hr : exists m,
    compute_circularity_metrics_N (delete "F2" (BASE_FLOWS_N (T := Q))) = Ok m)
    by (eexists; vm_compute; reflexivity).
  assert (Hb : exists m,
    compute_circularity_metrics_N (delete "F2" (BASE_FLOWS_N (T := spec_float))) = Ok m)
    by (eexists; vm_compute; reflexivity).
  split.
  - split; [key_in_list |]. split; [vm_compute; reflexivity |].
    split; [exact Hr |].
    destruct Hr as [m Hm]. intros [k Hk]. rewrite Hm in Hk. discriminate Hk.
  - split; [vm_compute; reflexivity |]. split; [exact Hb |].
    destruct Hb as [m Hm]. intros [k Hk]. rewrite Hm in Hk. discriminate Hk.
Qed.

(** ** More on the cascade in exact arithmetic *)

Lemma run_metrics_fields (P : Partitions Q) (p : Q) :
  input_N (run_metrics P p) = 4800 + 300 + 0 /\
  circular_N (run_metrics P p) = 2400 + 100 + run_F16 P p /\
  accessible_N (run_metrics P p) = run_accessible P p /\
  env_loss (run_metrics P p) = run_F7 p + run_F10 P p + run_F12 P p + 50 /\
  locked_stable (run_metrics P p) = run_F9 P p + run_F13 P p - 0 /\
  lost_N (run_metrics P p) =
    run_F7 p + run_F10 P p + run_F12 P p + 50 + (run_F9 P p + run_F13 P p - 0).
Proof. repeat split. Qed.

(** The affine forms of the flows, for use below. *)
Lemma run_closed_form (p : Q) :
  0 <= p ->
  exists s, update_scenario p = Ok s /\
    delta s == 9 * p /\
    flow (flows s) "F7" == 900 - 9 * p /\
    flow (flows s) "F6" == 2400 + 9 * p /\
    flow (flows s) "F8" == 1900 + (57 # 8) * p /\
    flow (flows s) "F9" == 200 + (3 # 4) * p /\
    flow (flows s) "F10" == 300 + (9 # 8) * p /\
    flow (flows s) "F11" == 1300 + (39 # 8) * p /\
    flow (flows s) "F12" == 300 + (9 # 8) * p /\
    flow (flows s) "F13" == 300 + (9 # 8) * p /\
    flow (flows s) "F15" == 800 + 3 * p /\
    flow (flows s) "F16" == 500 + (15 # 8) * p.
Proof.
  intros Hp. exists (run FRACTIONS p). split; [apply update_scenario_run |].
  pose proof (Qdiv_100 p) as Hd.
  pose proof (run_C7_in_value p) as Hc.
  pose proof (run_outflow_value p Hp) as Ho.
  cbn [flows run delta]. autorewrite with flow_run.
  assert (Hout : run_outflow FRACTIONS p == 1900 + (57 # 8) * p) by (rewrite Ho; lra).
  clear Hc Ho.
  unfold run_F16, run_F15, run_F13, run_F12, run_F11.
  repeat split; run_arith; lra.
Qed.

(** Every flow of the output is an affine function of the percent, from
    percent 0 upward (the cap of 50 stays saturated): the nitrogen kept out
    of the housing loss is 9 per percent, and it reaches the downstream
    flows in the baseline proportions. *)
Theorem cascade_closed_form (p : Q) :
  0 <= p ->
  exists s, update_scenario p = Ok s /\
    delta s == 9 * p /\
    flow (flows s) "F7" == 900 - 9 * p /\
    flow (flows s) "F6" == 2400 + 9 * p /\
    flow (flows s) "F8" == 1900 + (57 # 8) * p /\
    flow (flows s) "F9" == 200 + (3 # 4) * p /\
    flow (flows s) "F10" == 300 + (9 # 8) * p /\
    flow (flows s) "F11" == 1300 + (39 # 8) * p /\
    flow (flows s) "F12" == 300 + (9 # 8) * p /\
    flow (flows s) "F13" == 300 + (9 # 8) * p /\
    flow (flows s) "F15" == 800 + 3 * p /\
    flow (flows s) "F16" == 500 + (15 # 8) * p.
Proof.
  intros Hp. exists (run FRACTIONS p). split; [apply update_scenario_run |].
  pose proof (Qdiv_100 p) as Hd.
  pose proof (run_C7_in_value p) as Hc.
  pose proof (run_outflow_value p Hp) as Ho.
  cbn [flows run delta]. autorewrite with flow_run.
  assert (Hout : run_outflow FRACTIONS p == 1900 + (57 # 8) * p) by (rewrite Ho; lra).
  clear Hc Ho.
  unfold run_F16, run_F15, run_F13, run_F12, run_F11.
  repeat split; run_arith; lra.
Qed.

Lemma cascade_closed_form_witness :
  0 <= 50 /\
  exists s, update_scenario 50 = Ok s /\
    delta s == 9 * 50 /\
    flow (flows s) "F7" == 900 - 9 * 50 /\
    flow (flows s) "F6" == 2400 + 9 * 50 /\
    flow (flows s) "F8" == 1900 + (57 # 8) * 50 /\
    flow (flows s) "F9" == 200 + (3 # 4) * 50 /\
    flow (flows s) "F10" == 300 + (9 # 8) * 50 /\
    flow (flows s) "F11" == 1300 + (39 # 8) * 50 /\
    flow (flows s) "F12" == 300 + (9 # 8) * 50 /\
    flow (flows s) "F13" == 300 + (9 # 8) * 50 /\
    flow (flows s) "F15" == 800 + 3 * 50 /\
    flow (flows s) "F16" == 500 + (15 # 8) * 50.
Proof.
  assert (Hr : 0 <= 50) by discriminate.
  split; [exact Hr | exact (cascade_closed_form 50 Hr)].
Defined.

(** The metrics of the output in exact arithmetic, from percent 0 upward:
    the input stays 5100 and accessible stays 50; circular gains 1.875 per
    percent, the environmental loss drops by 6.75 and the stable soil gain
    rises by 1.875, so lost drops by 4.875. *)
Lemma metrics_closed_form_exact (p : Q) :
  0 <= p ->
  exists s, update_scenario p = Ok s /\
    input_N (metrics s) == 5100 /\
    circular_N (metrics s) == 3000 + (15 # 8) * p /\
    accessible_N (metrics s) == 50 /\
    env_loss (metrics s) == 1550 - (27 # 4) * p /\
    locked_stable (metrics s) == 500 + (15 # 8) * p /\
    lost_N (metrics s) == 2050 - (39 # 8) * p.
Proof.
  intros Hp. exists (run FRACTIONS p). split; [apply update_scenario_run |].
  pose proof (Qdiv_100 p) as Hd.
  pose proof (run_C7_in_value p) as Hc.
  pose proof (run_outflow_value p Hp) as Ho.
  pose proof (run_accessible_target p Hp) as Ha.
  destruct (run_metrics_fields FRACTIONS p) as (Hi & Hci & Hac & He & Hl & Hlo).
  cbn [metrics run]. rewrite Hi, Hci, Hac, He, Hl, Hlo, Ha.
  assert (Hout : run_outflow FRACTIONS p == 1900 + (57 # 8) * p) by (rewrite Ho; lra).
  clear Hc Ho Hi Hci Hac He Hl Hlo Ha.
  unfold run_F16, run_F15, run_F13, run_F12, run_F11.
  repeat split; run_arith; lra.
Qed.

(** In exact arithmetic the three categories do not add up to the input
    once the slider moves: circular + accessible + lost is
    input - 3 * percent.  The missing part is the growth of F15 (crops to
    home-grown feed), which leaves the crops but is passed on by no flow,
    F2 being kept at 800. *)
Lemma metrics_do_not_cover_input_exact (p : Q) :
  0 <= p ->
  exists s, update_scenario p = Ok s /\
    circular_N (metrics s) + accessible_N (metrics s) + lost_N (metrics s)
      == input_N (metrics s) - 3 * p /\
    flow (flows s) "F15" - flow (flows s) "F2" == 3 * p.
Proof.
  intros Hp.
  destruct (metrics_closed_form_exact p Hp) as (s & Hs & Hi & Hc & Ha & _ & _ & Hl).
  destruct (run_closed_form p Hp) as (s' & Hs' & Hflows).
  assert (s' = s) as -> by congruence.
  exists s. split; [exact Hs |]. split.
  - rewrite Hi, Hc, Ha, Hl. lra.
  - destruct Hflows as (_ & _ & _ & _ & _ & _ & _ & _ & _ & H15 & _).
    rewrite H15.
    assert (H2 : flow (flows s) "F2" = 800).
    { rewrite update_scenario_run in Hs. injection Hs as <-. reflexivity. }
    rewrite H2. lra.
Qed.

(** The housing loss F7 and the excretion F6 for any percent at all. *)
Lemma run_F7_F6_value (p : Q) :
  run_F7 p == 900 - 9 * p /\ run_F6 p == 2400 + 9 * p.
Proof. pose proof (Qdiv_100 p). split; run_arith; lra. Qed.

(** Monotonicity in exact arithmetic: a larger percent gives a strictly
    smaller housing loss F7 and a strictly larger excretion F6, for any two
    rational percents. *)
Lemma housing_loss_monotone_exact (p q : Q) :
  p < q ->
  exists s1 s2, update_scenario p = Ok s1 /\ update_scenario q = Ok s2 /\
    flow (flows s2) "F7" < flow (flows s1) "F7" /\
    flow (flows s1) "F6" < flow (flows s2) "F6".
Proof.
  intros Hlt. exists (run FRACTIONS p), (run FRACTIONS q).
  split; [apply update_scenario_run |]. split; [apply update_scenario_run |].
  cbn [flows run]. autorewrite with flow_run.
  destruct (run_F7_F6_value p) as [H7p H6p].
  destruct (run_F7_F6_value q) as [H7q H6q].
  rewrite H7p, H6p, H7q, H6q. split; lra.
Qed.

(** No negative magnitude inside the range, and the range is needed: for
    percent in [0,100] every one of the twenty flows of the output is
    non-negative, and above 100 the housing loss F7 is negative. *)
Theorem magnitudes_nonnegative (p : Q) :
  0 <= p ->
  exists s, update_scenario p = Ok s /\
    (p <= 100 -> forall k, k ∈ FLOW_KEYS -> 0 <= flow (flows s) k) /\
    (100 < p -> flow (flows s) "F7" < 0).
Proof.
  intros Hp.
  destruct (run_closed_form p Hp)
    as (s & Hs & _ & H7 & H6 & H8 & H9 & H10 & H11 & H12 & H13 & H15 & H16).
  exists s. split; [exact Hs |]. split.
  - intros Hle k Hk.
    assert (Hkept : forall k', k' ∈ KEPT_KEYS ->
              flow (flows s) k' = flow BASE_FLOWS_N k').
    { intros k' Hk'. rewrite update_scenario_run in Hs. injection Hs as <-.
      unfold flow. cbn [flows run]. by rewrite run_flows_kept. }
    unfold FLOW_KEYS in Hk.
    repeat (apply elem_of_cons in Hk as [-> | Hk];
            [first [ rewrite Hkept by key_in_list; discriminate
                   | rewrite H6; lra | rewrite H7; lra | rewrite H8; lra
                   | rewrite H9; lra | rewrite H10; lra | rewrite H11; lra
                   | rewrite H12; lra | rewrite H13; lra | rewrite H15; lra
                   | rewrite H16; lra ] |]).
    apply elem_of_nil in Hk. destruct Hk.
  - intros Hgt. rewrite H7. lra.
Qed.

Lemma magnitudes_nonnegative_witness :
  0 <= 100 /\
  exists s, update_scenario 100 = Ok s /\
    (100 <= 100 -> forall k, k ∈ FLOW_KEYS -> 0 <= flow (flows s) k) /\
    (100 < 100 -> flow (flows s) "F7" < 0).
Proof.
  assert (Hr : 0 <= 100) by discriminate.
  split; [exact Hr | exact (magnitudes_nonnegative 100 Hr)].
Defined.

(** ** The fraction derivation on any baseline *)

Section PartitionFacts.

Context {T : Type} `{PyNumber T}.

(** Fractions are produced only from a table that holds every key the
    derivation reads. *)
Lemma partition_fractions_ok_keys (base : gmap string T) (P : Partitions T) :
  partition_fractions base = Ok P -> has_keys base PARTITION_KEYS.
Proof.
  unfold partition_fractions, getitem, truediv. intros Hm k Hin.
  repeat match type of Hm with
  | context [ base !! ?key ] => destruct (base !! key) eqn:?
  end;
  cbn [mbind result_bind] in Hm;
  repeat match type of Hm with
  | context [ is_zero ?x ] => destruct (is_zero x); cbn [mbind result_bind] in Hm
  end;
  try discriminate Hm;
  unfold PARTITION_KEYS in Hin;
  repeat (apply elem_of_cons in Hin as [-> | Hin]; [eauto |]);
  apply elem_of_nil in Hin; destruct Hin.
Qed.

End PartitionFacts.

Lemma Qeq_bool_false (x y : Q) : ~ x == y -> Qeq_bool x y = false.
Proof.
  intros Hne. destruct (Qeq_bool x y) eqn:E; [| reflexivity].
  apply Qeq_bool_iff in E. contradiction.
Qed.

(** The derivation yields fractions exactly when the table holds the
    eight keys it reads and none of the three divisors - the storage
    outflow, the soil outflow and the crop inflow F11 - is zero. *)
Theorem partition_fractions_succeeds_iff (base : gmap string Q) :
  (exists P, partition_fractions base = Ok P) <->
  has_keys base PARTITION_KEYS /\
  ~ flow base "F8" + flow base "F9" + flow base "F10" == 0 /\
  ~ flow base "F11" + flow base "F12" + flow base "F13" == 0 /\
  ~ flow base "F11" == 0.
Proof.
  split.
  - intros [P HP]. pose proof (partition_fractions_ok_keys base P HP) as Hk.
    split; [exact Hk |].
    rewrite (partition_fractions_cases base Hk) in HP. cbn [is_zero add Q_number] in HP.
    rewrite <- !Qeq_bool_iff.
    destruct (Qeq_bool (flow base "F8" + flow base "F9" + flow base "F10") 0);
      [discriminate HP |].
    destruct (Qeq_bool (flow base "F11" + flow base "F12" + flow base "F13") 0);
      [discriminate HP |].
    destruct (Qeq_bool (flow base "F11") 0); [discriminate HP |].
    repeat split; discriminate.
  - intros (Hk & H1 & H2 & H3).
    rewrite (partition_fractions_cases base Hk). cbn [is_zero add Q_number].
    rewrite <- Qeq_bool_iff in H1, H2, H3.
    destruct (Qeq_bool (flow base "F8" + flow base "F9" + flow base "F10") 0);
      [by destruct H1 |].
    destruct (Qeq_bool (flow base "F11" + flow base "F12" + flow base "F13") 0);
      [by destruct H2 |].
    destruct (Qeq_bool (flow base "F11") 0); [by destruct H3 |].
    eexists. reflexivity.
Qed.

(** Fractions come only from a table with the keys and with no zero
    divisor. *)
Lemma partition_fractions_ok_nonzero (base : gmap string Q) (P : Partitions Q) :
  partition_fractions base = Ok P ->
  has_keys base PARTITION_KEYS /\
  ~ flow base "F8" + flow base "F9" + flow base "F10" == 0 /\
  ~ flow base "F11" + flow base "F12" + flow base "F13" == 0 /\
  ~ flow base "F11" == 0.
Proof.
  intros HP. pose proof (partition_fractions_ok_keys base P HP) as Hk.
  split; [exact Hk |].
  rewrite (partition_fractions_cases base Hk) in HP. cbn [is_zero add Q_number] in HP.
  rewrite <- !Qeq_bool_iff.
  destruct (Qeq_bool (flow base "F8" + flow base "F9" + flow base "F10") 0);
    [discriminate HP |].
  destruct (Qeq_bool (flow base "F11" + flow base "F12" + flow base "F13") 0);
    [discriminate HP |].
  destruct (Qeq_bool (flow base "F11") 0); [discriminate HP |].
  repeat split; discriminate.
Qed.

(** In exact arithmetic, whatever the baseline, the fractions that are
    derived split a whole: the storage fractions sum to 1 and so do the
    soil fractions; the crop fractions are taken of F11, so they sum to 1
    exactly when the baseline has F15 + F16 = F11. *)
Lemma partition_fractions_sum_to_one_exact (base : gmap string Q) (P : Partitions Q) :
  partition_fractions base = Ok P ->
  P_F8 P + P_F9 P + P_F10 P == 1 /\
  P_F11 P + P_F12 P + P_F13 P == 1 /\
  (P_F15 P + P_F16 P == 1 <->
   flow base "F15" + flow base "F16" == flow base "F11").
Proof.
  intros HP.
  destruct (partition_fractions_ok_nonzero base P HP) as (Hk & H1 & H2 & H3).
  rewrite (partition_fractions_cases base Hk) in HP. cbn [is_zero add Q_number] in HP.
  rewrite (Qeq_bool_false _ _ H1), (Qeq_bool_false _ _ H2), (Qeq_bool_false _ _ H3) in HP.
  cbn [orb] in HP. injection HP as <-.
  cbn [P_F8 P_F9 P_F10 P_F11 P_F12 P_F13 P_F15 P_F16 div Q_number].
  split; [field; exact H1 |]. split; [field; exact H2 |].
  split.
  - intros Hs.
    assert (E : (flow base "F15" / flow base "F11" + flow base "F16" / flow base "F11")
                * flow base "F11" == flow base "F15" + flow base "F16")
      by (field; exact H3).
    rewrite <- E, Hs. ring.
  - intros Hs.
    transitivity ((flow base "F15" + flow base "F16") / flow base "F11");
      [field; exact H3 |].
    rewrite Hs. field. exact H3.
Qed.

(** ** The Sankey figure *)

Section IndexFacts.

Implicit Types (l : list string) (d : gmap string nat).

Lemma index_from_cons n d x l :
  index_from n d (x :: l) = index_from (S n) (<[x := n]> d) l.
Proof. reflexivity. Qed.

Lemma index_from_notin l : forall n d x,
  x ∉ l -> index_from n d l !! x = d !! x.
Proof.
  induction l as [| y l IH]; intros n d x Hx; [reflexivity |].
  apply not_elem_of_cons in Hx as [Hne Hx].
  rewrite index_from_cons, IH by exact Hx.
  by rewrite lookup_insert_ne.
Qed.

Lemma index_from_lookup l : forall n d i x,
  NoDup l -> l !! i = Some x -> index_from n d l !! x = Some (n + i)%nat.
Proof.
  induction l as [| y l IH]; intros n d i x Hnd Hi; [discriminate Hi |].
  apply NoDup_cons in Hnd as [Hy Hnd]. rewrite index_from_cons.
  destruct i as [| i]; cbn in Hi.
  - injection Hi as ->. rewrite index_from_notin by exact Hy.
    rewrite lookup_insert_eq. f_equal. lia.
  - rewrite (IH (S n) _ i x Hnd Hi). f_equal. lia.
Qed.

Lemma index_from_points l : forall n d i x,
  index_from n d l !! x = Some i ->
  d !! x = Some i \/ (exists j, i = (n + j)%nat /\ l !! j = Some x).
Proof.
  induction l as [| y l IH]; intros n d i x Hi; [by left |].
  rewrite index_from_cons in Hi. apply IH in Hi as [Hi | (j & -> & Hj)].
  - destruct (decide (y = x)) as [-> | Hne].
    + rewrite lookup_insert_eq in Hi. injection Hi as <-.
      right. exists 0%nat. split; [lia | reflexivity].
    + rewrite lookup_insert_ne in Hi by exact Hne. by left.
  - right. exists (S j). split; [lia | exact Hj].
Qed.

End IndexFacts.

(** The dictionary built from a list of distinct names inverts the list:
    a name is mapped to [i] exactly when it stands at position [i]. *)
Theorem index_of_names_inverts (names : list string) (i : nat) (x : string) :
  NoDup names ->
  index_of_names names !! x = Some i <-> names !! i = Some x.
Proof.
  intros Hnd. change (index_of_names names) with (index_from 0 ∅ names). split.
  - intros Hi. apply index_from_points in Hi as [Hi | (j & -> & Hj)].
    + rewrite lookup_empty in Hi. discriminate Hi.
    + exact Hj.
  - intros Hi. apply (index_from_lookup names 0 ∅ i x Hnd Hi).
Qed.

Lemma NODES_NoDup : NoDup NODES.
Proof. apply (bool_decide_unpack _). vm_compute. exact I. Defined.

Lemma index_of_names_inverts_witness :
  NoDup NODES /\
  (NODE_IDX !! "ENVIRONMENT" = Some 11%nat <-> NODES !! 11%nat = Some "ENVIRONMENT").
Proof.
  split; [exact NODES_NoDup |].
  exact (index_of_names_inverts NODES 11 "ENVIRONMENT" NODES_NoDup).
Defined.

Section SankeyFacts.

Context {T : Type} `{PyNumber T}.

Variable t : gmap string T.

Lemma mapM_getitem_keys (ks : list string) :
  has_keys t ks -> mapM (getitem t) ks = Ok (map (flow t) ks).
Proof.
  induction ks as [| k ks IH]; intros Hk; [reflexivity |].
  cbn [mapM map]. rewrite (getitem_has_keys t (k :: ks) k Hk) by apply list_elem_of_here.
  cbn [mbind result_bind]. rewrite IH; [reflexivity |].
  intros k' Hin. apply Hk. by apply list_elem_of_further.
Qed.

Lemma mapM_getitem_ok (ks : list string) (vs : list T) :
  mapM (getitem t) ks = Ok vs -> has_keys t ks.
Proof.
  revert vs. induction ks as [| k ks IH]; intros vs Hm k' Hin.
  - by apply elem_of_nil in Hin.
  - cbn [mapM] in Hm.
    destruct (getitem t k) as [v | e0] eqn:Hg; cbn [mbind result_bind] in Hm;
      [| discriminate Hm].
    destruct (mapM (getitem t) ks) as [vs' | e0] eqn:Hrest;
      cbn [mbind result_bind] in Hm; [| discriminate Hm].
    apply elem_of_cons in Hin as [-> | Hin]; [| by apply (IH vs')].
    unfold getitem in Hg. destruct (t !! k); [eauto | discriminate Hg].
Qed.

Lemma mapM_getitem_raise (ks : list string) (e : exn) :
  mapM (getitem t) ks = Raise e ->
  exists k, e = KeyError k /\ k ∈ ks /\ t !! k = None.
Proof.
  induction ks as [| k ks IH]; intros Hm; [discriminate Hm |].
  cbn [mapM] in Hm.
  destruct (getitem t k) as [v | e0] eqn:Hg; cbn [mbind result_bind] in Hm.
  - destruct (mapM (getitem t) ks) as [vs' | e'] eqn:Hrest;
      cbn [mbind result_bind] in Hm; [discriminate Hm |].
    injection Hm as <-. destruct (IH eq_refl) as (k' & He & Hin & Hnone).
    exists k'. split; [exact He |]. split; [by apply list_elem_of_further | exact Hnone].
  - injection Hm as <-. unfold getitem in Hg.
    destruct (t !! k) eqn:Hv; [discriminate Hg |]. injection Hg as <-.
    exists k. split; [reflexivity |]. split; [apply list_elem_of_here | exact Hv].
Qed.

Lemma sankey_sources :
  mapM (fun l : string * string * string => getitem NODE_IDX l.1.1) LINKS
  = Ok [0; 1; 3; 4; 2; 2; 2; 5; 5; 5; 6; 6; 6; 7; 8; 8; 2; 12; 12; 12]%nat.
Proof. vm_compute. reflexivity. Qed.

Lemma sankey_targets :
  mapM (fun l : string * string * string => getitem NODE_IDX l.1.2) LINKS
  = Ok [2; 2; 2; 6; 9; 5; 11; 6; 7; 11; 8; 11; 7; 6; 1; 10; 12; 6; 9; 11]%nat.
Proof. vm_compute. reflexivity. Qed.

Lemma sankey_values :
  mapM (fun l : string * string * string => getitem t l.2) LINKS
  = mapM (getitem t) FLOW_KEYS.
Proof. reflexivity. Qed.

Lemma make_sankey_figure_values :
  make_sankey_figure t =
    values ← mapM (getitem t) FLOW_KEYS;
    mret {| label := NODES;
            source := [0; 1; 3; 4; 2; 2; 2; 5; 5; 5; 6; 6; 6; 7; 8; 8; 2; 12; 12; 12]%nat;
            target := [2; 2; 2; 6; 9; 5; 11; 6; 7; 11; 8; 11; 7; 6; 1; 10; 12; 6; 9; 11]%nat;
            value := values |}.
Proof.
  unfold make_sankey_figure. rewrite sankey_sources, sankey_targets, sankey_values.
  reflexivity.
Qed.

End SankeyFacts.

(** The Sankey figure needs all twenty keys, where the metrics need
    fifteen: it is built exactly when the table holds every flow key, and
    otherwise the error is the [KeyError] of a flow key the table lacks. *)
Theorem make_sankey_figure_key_error {T : Type} `{PyNumber T} (t : gmap string T) :
  ((exists fig, make_sankey_figure t = Ok fig) <-> has_keys t FLOW_KEYS) /\
  (forall e, make_sankey_figure t = Raise e ->
     exists k, e = KeyError k /\ k ∈ FLOW_KEYS /\ t !! k = None).
Proof.
  rewrite make_sankey_figure_values. split; [split |].
  - intros [fig Hfig].
    destruct (mapM (getitem t) FLOW_KEYS) as [vs | e] eqn:Hm; [| discriminate Hfig].
    by apply (mapM_getitem_ok t FLOW_KEYS vs).
  - intros Hk. rewrite (mapM_getitem_keys t FLOW_KEYS Hk). eexists. reflexivity.
  - intros e He.
    destruct (mapM (getitem t) FLOW_KEYS) as [vs | e'] eqn:Hm; [discriminate He |].
    injection He as <-. by apply mapM_getitem_raise.
Qed.

(** On a table with the twenty keys the figure is faithful to the graph:
    its labels are the node names, and link number [j] joins the nodes
    labelled with the source and the target of the [j]-th entry of [LINKS],
    two different nodes, and carries the magnitude of that entry's flow. *)
Theorem make_sankey_figure_links {T : Type} `{PyNumber T} (t : gmap string T) :
  has_keys t FLOW_KEYS ->
  exists fig, make_sankey_figure t = Ok fig /\
    label fig = NODES /\
    length (source fig) = 20%nat /\ length (target fig) = 20%nat /\
    length (value fig) = 20%nat /\
    forall j src tgt fid, LINKS !! j = Some (src, tgt, fid) ->
      exists a b, source fig !! j = Some a /\ target fig !! j = Some b /\
        label fig !! a = Some src /\ label fig !! b = Some tgt /\
        a <> b /\ value fig !! j = t !! fid.
Proof.
  intros Hk. rewrite make_sankey_figure_values, (mapM_getitem_keys t FLOW_KEYS Hk).
  eexists. split; [reflexivity |]. cbn [label source target value].
  do 4 (split; [reflexivity |]).
  assert (Hv : forall k, k ∈ FLOW_KEYS -> t !! k = Some (flow t k)).
  { intros k Hin. destruct (Hk k Hin) as [v Hv]. unfold flow. by rewrite Hv. }
  intros j src tgt fid Hj.
  do 20 (destruct j as [| j];
    [ injection Hj as <- <- <-; eexists _, _;
      repeat (split; [reflexivity || (intros Hab; discriminate Hab) |]);
      rewrite Hv by key_in_list; reflexivity |]).
  discriminate Hj.
Qed.

Lemma make_sankey_figure_links_witness :
  has_keys (BASE_FLOWS_N (T := Q)) FLOW_KEYS /\
  exists fig, make_sankey_figure (BASE_FLOWS_N (T := Q)) = Ok fig /\
    label fig = NODES /\
    length (source fig) = 20%nat /\ length (target fig) = 20%nat /\
    length (value fig) = 20%nat /\
    forall j src tgt fid, LINKS !! j = Some (src, tgt, fid) ->
      exists a b, source fig !! j = Some a /\ target fig !! j = Some b /\
        label fig !! a = Some src /\ label fig !! b = Some tgt /\
        a <> b /\ value fig !! j = (BASE_FLOWS_N (T := Q)) !! fid.
Proof.
  split; [exact BASE_FLOWS_N_has_keys |].
  exact (make_sankey_figure_links BASE_FLOWS_N BASE_FLOWS_N_has_keys).
Defined.

(** ** The bar chart and the whole callback *)

(** The bar chart divides by the external input: with input 0 it ends in
    [ZeroDivisionError], otherwise its three bars are circular, accessible
    and lost as percent of the input. *)
Theorem make_circularity_bar_figure_cases (m : Metrics Q) :
  (input_N m == 0 -> make_circularity_bar_figure m = Raise ZeroDivisionError) /\
  (~ input_N m == 0 ->
   make_circularity_bar_figure m =
     Ok [ circular_N m / input_N m * 100;
          accessible_N m / input_N m * 100;
          lost_N m / input_N m * 100 ]).
Proof.
  unfold make_circularity_bar_figure, truediv. cbn [is_zero Q_number]. split.
  - intros Hz. apply Qeq_bool_iff in Hz. rewrite Hz. reflexivity.
  - intros Hnz. rewrite (Qeq_bool_false _ _ Hnz). reflexivity.
Qed.

Lemma make_circularity_bar_figure_cases_witness :
  input_N {| input_N := 0; circular_N := 3000; accessible_N := 50;
             lost_N := 2050; env_loss := 1550; locked_stable := 500 |} == 0 /\
  make_circularity_bar_figure
    {| input_N := 0; circular_N := 3000; accessible_N := 50;
       lost_N := 2050; env_loss := 1550; locked_stable := 500 |}
  = Raise ZeroDivisionError.
Proof.
  assert (Hz : input_N {| input_N := 0; circular_N := 3000; accessible_N := 50;
                          lost_N := 2050; env_loss := 1550; locked_stable := 500 |}
               == 0) by reflexivity.
  split; [exact Hz |].
  exact (proj1 (make_circularity_bar_figure_cases _) Hz).
Defined.

Lemma run_flows_has_keys (p : Q) : has_keys (run_flows FRACTIONS p) FLOW_KEYS.
Proof.
  intros k Hin. apply elem_of_dom.
  replace (dom (run_flows FRACTIONS p)) with (list_to_set FLOW_KEYS : gset string)
    by (symmetry; apply run_flows_dom).
  by apply elem_of_list_to_set.
Qed.

Lemma run_sankey (p : Q) :
  make_sankey_figure (run_flows FRACTIONS p) =
    Ok {| label := NODES;
          source := [0; 1; 3; 4; 2; 2; 2; 5; 5; 5; 6; 6; 6; 7; 8; 8; 2; 12; 12; 12]%nat;
          target := [2; 2; 2; 6; 9; 5; 11; 6; 7; 11; 8; 11; 7; 6; 1; 10; 12; 6; 9; 11]%nat;
          value := map (flow (run_flows FRACTIONS p)) FLOW_KEYS |}.
Proof.
  rewrite make_sankey_figure_values, mapM_getitem_keys by apply run_flows_has_keys.
  reflexivity.
Qed.

Lemma bar_figure_nonzero_input (m : Metrics Q) :
  ~ input_N m == 0 ->
  make_circularity_bar_figure m =
    Ok [ circular_N m / input_N m * 100;
         accessible_N m / input_N m * 100;
         lost_N m / input_N m * 100 ].
Proof.
  intros Hnz. unfold make_circularity_bar_figure, truediv. cbn [is_zero Q_number].
  rewrite (Qeq_bool_false _ _ Hnz). reflexivity.
Qed.

Lemma run_bars (p : Q) :
  make_circularity_bar_figure (run_metrics FRACTIONS p) =
    Ok [ circular_N (run_metrics FRACTIONS p) / 5100 * 100;
         accessible_N (run_metrics FRACTIONS p) / 5100 * 100;
         lost_N (run_metrics FRACTIONS p) / 5100 * 100 ].
Proof.
  assert (Hi : input_N (run_metrics FRACTIONS p) = 4800 + 300 + 0) by reflexivity.
  assert (Hnz : ~ input_N (run_metrics FRACTIONS p) == 0) by (rewrite Hi; discriminate).
  rewrite (bar_figure_nonzero_input _ Hnz), Hi. reflexivity.
Qed.

Lemma update_scenario_figures_run (p : Q) :
  update_scenario_figures p =
    Ok (run FRACTIONS p,
        {| label := NODES;
           source := [0; 1; 3; 4; 2; 2; 2; 5; 5; 5; 6; 6; 6; 7; 8; 8; 2; 12; 12; 12]%nat;
           target := [2; 2; 2; 6; 9; 5; 11; 6; 7; 11; 8; 11; 7; 6; 1; 10; 12; 6; 9; 11]%nat;
           value := map (flow (run_flows FRACTIONS p)) FLOW_KEYS |},
        [ circular_N (run_metrics FRACTIONS p) / 5100 * 100;
          accessible_N (run_metrics FRACTIONS p) / 5100 * 100;
          lost_N (run_metrics FRACTIONS p) / 5100 * 100 ]).
Proof.
  unfold update_scenario_figures. rewrite update_scenario_run.
  cbn [mbind result_bind flows metrics run].
  rewrite run_sankey. cbn [mbind result_bind].
  rewrite run_bars. reflexivity.
Qed.

(** In exact arithmetic the bars of the callback sum to
    100 - percent / 17: they cover the whole input only at percent 0. *)
Lemma bars_sum_exact (p : Q) :
  0 <= p ->
  exists s fig c a l, update_scenario_figures p = Ok (s, fig, [c; a; l]) /\
    c + a + l == 100 - p / 17.
Proof.
  intros Hp. rewrite update_scenario_figures_run. do 5 eexists.
  split; [reflexivity |].
  destruct (metrics_closed_form_exact p Hp) as (s & Hs & _ & Hc & Ha & _ & _ & Hl).
  rewrite update_scenario_run in Hs. injection Hs as <-. cbn [metrics run] in Hc, Ha, Hl.
  rewrite Hc, Ha, Hl. field.
Qed.

(** ** The earlier variants *)

Section VariantFacts.

Context {T : Type} `{PyNumber T}.

Local Open Scope py_scope.

Variable percent : T.

Hypothesis hundred_nonzero : is_zero (num 100) = false.

Lemma interactive_run :
  Interactive.update_scenario percent =
    Ok (<["F6" := run_F6 percent]> (<["F7" := run_F7 percent]> BASE_FLOWS_N),
        {| input_N := num 4800 + num 300 + num 0;
           circular_N := num 2400 + num 100 + num 500;
           accessible_N := num 50;
           lost_N := run_F7 percent + num 300 + num 300 + num 50 + num 500;
           env_loss := run_F7 percent + num 300 + num 300 + num 50;
           locked_stable := num 500 |}).
Proof using hundred_nonzero.
  unfold Interactive.update_scenario, truediv. rewrite hundred_nonzero.
  vm_compute. reflexivity.
Qed.

Lemma deployed_run :
  Deployed.update_scenario percent =
    Ok (<["F6" := num 2400 + num 900 * div percent (num 100)]>
          (<["F7" := run_F7 percent]> BASE_FLOWS_N),
        {| input_N := num 4800 + num 300 + num 0;
           circular_N := num 2400 + num 100 + num 500;
           accessible_N := num 50;
           lost_N := run_F7 percent + num 300 + num 300 + num 50 + num 500;
           env_loss := run_F7 percent + num 300 + num 300 + num 50;
           locked_stable := num 500 |}).
Proof using hundred_nonzero.
  unfold Deployed.update_scenario, truediv. rewrite hundred_nonzero.
  vm_compute. reflexivity.
Qed.

End VariantFacts.

Section ToyMetricsFacts.

Context {T : Type} `{PyNumber T}.

Variable t : gmap string T.

Lemma toy_metrics_has_keys :
  has_keys t TOY_READ_KEYS ->
  Interactive.compute_circularity_metrics_N t =
    Ok {| input_N := add (add (flow t "F1") (flow t "F3")) (flow t "F4");
          circular_N := add (add (flow t "F5") (flow t "F19")) (flow t "F16");
          accessible_N := num 50;
          lost_N := add (add (add (add (flow t "F7") (flow t "F10")) (flow t "F12"))
                           (flow t "F20")) (num 500);
          env_loss := add (add (add (flow t "F7") (flow t "F10")) (flow t "F12"))
                          (flow t "F20");
          locked_stable := num 500 |}.
Proof.
  intros Hk. unfold Interactive.compute_circularity_metrics_N.
  rewrite !(getitem_has_keys t TOY_READ_KEYS) by (done || key_in_list).
  reflexivity.
Qed.

Lemma derived_metrics_has_keys :
  has_keys t READ_KEYS ->
  compute_circularity_metrics_N t =
    Ok {| input_N := add (add (flow t "F1") (flow t "F3")) (flow t "F4");
          circular_N := add (add (flow t "F5") (flow t "F19")) (flow t "F16");
          accessible_N :=
            py_min ACCESSIBLE_TARGET
              (add (add (add (flow t "F4") (flow t "F8")) (flow t "F14")) (flow t "F18"));
          lost_N := add (add (add (add (flow t "F7") (flow t "F10")) (flow t "F12"))
                           (flow t "F20"))
                        (sub (add (flow t "F9") (flow t "F13")) (flow t "F14"));
          env_loss := add (add (add (flow t "F7") (flow t "F10")) (flow t "F12"))
                          (flow t "F20");
          locked_stable := sub (add (flow t "F9") (flow t "F13")) (flow t "F14") |}.
Proof.
  intros Hk. unfold compute_circularity_metrics_N.
  rewrite !(getitem_has_keys t READ_KEYS) by (done || key_in_list).
  reflexivity.
Qed.

Lemma toy_metrics_ok_keys (m : Metrics T) :
  Interactive.compute_circularity_metrics_N t = Ok m -> has_keys t TOY_READ_KEYS.
Proof.
  unfold Interactive.compute_circularity_metrics_N, getitem. intros Hm k Hin.
  repeat match type of Hm with
  | context [ t !! ?key ] =>
      destruct (t !! key) eqn:?; cbn [mbind result_bind] in Hm; [| discriminate Hm]
  end.
  unfold TOY_READ_KEYS in Hin.
  repeat (apply elem_of_cons in Hin as [-> | Hin]; [eauto |]).
  apply elem_of_nil in Hin. destruct Hin.
Qed.

Lemma toy_metrics_raise_key (e : exn) :
  Interactive.compute_circularity_metrics_N t = Raise e ->
  exists k, e = KeyError k /\ k ∈ TOY_READ_KEYS /\ t !! k = None.
Proof.
  unfold Interactive.compute_circularity_metrics_N, getitem. intros Hm.
  repeat match type of Hm with
  | context [ t !! ?key ] =>
      destruct (t !! key) eqn:?; cbn [mbind result_bind] in Hm;
      [| injection Hm as <-; exists key; split; [reflexivity | split; [key_in_list | assumption]]]
  end.
  discriminate Hm.
Qed.

End ToyMetricsFacts.

(** In exact arithmetic the interactive variant moves 9 * percent from F7
    to F6 and touches nothing else: eighteen flows keep their baseline
    entries, so the manure storage receives 9 * percent more than
    F8 + F9 + F10 carry away; its metrics show no gain in circular
    nitrogen, and lost drops by the whole 9 * percent. *)
Lemma interactive_moves_housing_loss_only_exact (p : Q) :
  exists t m, Interactive.update_scenario p = Ok (t, m) /\
    flow t "F7" == 900 - 9 * p /\
    flow t "F6" == 2400 + 9 * p /\
    (forall k, k <> "F6" -> k <> "F7" -> t !! k = BASE_FLOWS_N !! k) /\
    flow t "F6" - (flow t "F8" + flow t "F9" + flow t "F10") == 9 * p /\
    input_N m == 5100 /\ circular_N m == 3000 /\ accessible_N m == 50 /\
    locked_stable m == 500 /\ env_loss m == 1550 - 9 * p /\
    lost_N m == 2050 - 9 * p.
Proof.
  do 2 eexists. split; [by apply interactive_run |].
  destruct (run_F7_F6_value p) as [H7 H6].
  assert (E7 : flow (<["F6" := run_F6 p]> (<["F7" := run_F7 p]> BASE_FLOWS_N)) "F7"
               = run_F7 p) by reflexivity.
  assert (E6 : flow (<["F6" := run_F6 p]> (<["F7" := run_F7 p]> BASE_FLOWS_N)) "F6"
               = run_F6 p) by reflexivity.
  assert (E8 : flow (<["F6" := run_F6 p]> (<["F7" := run_F7 p]> BASE_FLOWS_N)) "F8"
               = 1900) by reflexivity.
  assert (E9 : flow (<["F6" := run_F6 p]> (<["F7" := run_F7 p]> BASE_FLOWS_N)) "F9"
               = 200) by reflexivity.
  assert (E10 : flow (<["F6" := run_F6 p]> (<["F7" := run_F7 p]> BASE_FLOWS_N)) "F10"
               = 300) by reflexivity.
  rewrite E7, E6, E8, E9, E10.
  cbn [input_N circular_N accessible_N locked_stable env_loss lost_N
       add num Q_number]. unfold inject_Z.
  split; [exact H7 |]. split; [exact H6 |]. split.
  { intros k Hk6 Hk7. by rewrite !lookup_insert_ne. }
  rewrite H7, H6. repeat split; (reflexivity || lra).
Qed.

(** The three callbacks agree on the move itself: in exact arithmetic the
    deployed variant returns the table and the metrics of the interactive
    one, value for value, and the cascading variant has their F6 and F7. *)
Theorem variants_agree_on_housing_loss (p : Q) :
  exists ti mi td md s,
    Interactive.update_scenario p = Ok (ti, mi) /\
    Deployed.update_scenario p = Ok (td, md) /\
    update_scenario p = Ok s /\
    dom td = dom ti /\
    (forall k, flow td k == flow ti k) /\ md = mi /\
    flow (flows s) "F6" == flow ti "F6" /\
    flow (flows s) "F7" == flow ti "F7".
Proof.
  do 5 eexists. split; [by apply interactive_run |].
  split; [by apply deployed_run |]. split; [apply update_scenario_run |].
  split; [by rewrite !dom_insert_L |]. split; [| split; [reflexivity |]].
  - intros k. unfold flow.
    destruct (decide (k = "F6")) as [-> | Hk6].
    + rewrite !lookup_insert_eq. pose proof (Qdiv_100 p). run_arith. lra.
    + by rewrite !(lookup_insert_ne _ "F6") by congruence.
  - cbn [flows run]. autorewrite with flow_run. split; reflexivity.
Qed.

(** The constants 50 and 500 of the earlier metrics against the derived
    formulas, in exact arithmetic: on any table of rationals with the
    twenty keys both functions return, with the same input, circular and
    environmental loss; accessible agrees exactly when the soil-available
    inflow reaches 50, and the stable soil gain exactly when
    F9 + F13 - F14 is 500. *)
Lemma toy_metrics_against_derived_exact (t : gmap string Q) :
  has_keys t FLOW_KEYS ->
  exists mt md,
    Interactive.compute_circularity_metrics_N t = Ok mt /\
    compute_circularity_metrics_N t = Ok md /\
    input_N mt = input_N md /\ circular_N mt = circular_N md /\
    env_loss mt = env_loss md /\
    (accessible_N mt == accessible_N md <-> 50 <= inflow_C7 t) /\
    (locked_stable mt == locked_stable md <->
     flow t "F9" + flow t "F13" - flow t "F14" == 500) /\
    (lost_N mt == lost_N md <->
     flow t "F9" + flow t "F13" - flow t "F14" == 500).
Proof.
  intros Hk. do 2 eexists.
  split.
  { apply toy_metrics_has_keys. intros k Hin. apply Hk.
    unfold TOY_READ_KEYS in Hin.
    repeat (apply elem_of_cons in Hin as [-> | Hin]; [key_in_list |]).
    by apply elem_of_nil in Hin. }
  split.
  { apply derived_metrics_has_keys. intros k Hin. apply Hk.
    by apply READ_KEYS_FLOW_KEYS. }
  cbn [input_N circular_N env_loss accessible_N locked_stable lost_N].
  do 3 (split; [reflexivity |]).
  fold (inflow_C7 t). rewrite py_min_Qmin.
  unfold ACCESSIBLE_TARGET. cbn [add sub num Q_number]. unfold inject_Z.
  split; [| split].
  - split.
    + intros Hm. rewrite Hm. apply Q.le_min_r.
    + intros Hle. symmetry. by apply Q.min_l.
  - split; intros Heq; [symmetry; exact Heq | symmetry; exact Heq].
  - split; intros Heq; lra.
Qed.

(** ** The callback in binary64, at the positions of the slider *)

Lemma Z_below_forallb (P : Z -> bool) (n : nat) (z : Z) :
  forallb P (Z_below n) = true -> (0 <= z < Z.of_nat n)%Z -> P z = true.
Proof.
  intros Hall Hz. rewrite forallb_forall in Hall. apply Hall.
  unfold Z_below. apply in_map_iff. exists (Z.to_nat z).
  split; [lia |]. apply in_seq. lia.
Qed.

Lemma b64_identical_eq (a b : spec_float) : b64_identical a b = true -> a = b.
Proof.
  destruct a as [s1 | s1 | | s1 m1 e1], b as [s2 | s2 | | s2 m2 e2];
    cbn [b64_identical]; try discriminate; try reflexivity.
  - intros E. apply Bool.eqb_prop in E. by subst.
  - intros E. apply Bool.eqb_prop in E. by subst.
  - intros E. apply andb_true_iff in E as [E E3]. apply andb_true_iff in E as [E1 E2].
    apply Bool.eqb_prop in E1. apply Pos.eqb_eq in E2. apply Z.eqb_eq in E3.
    by subst.
Qed.

Lemma b64_conserves_slider : forallb b64_conserves_at (Z_below 101) = true.
Proof. vm_compute. reflexivity. Qed.

Lemma b64_matches_slider : forallb b64_matches_at (Z_below 101) = true.
Proof. vm_compute. reflexivity. Qed.

Lemma b64_variants_agree_slider : forallb b64_variants_agree_at (Z_below 101) = true.
Proof. vm_compute. reflexivity. Qed.

(** Binary64 keeps the balances exactly where the slider can stand: for
    every integer percent from 0 to 100 the callback, run on floats,
    returns a table in which F7 + F6 == 3300, F8 + F9 + F10 == F6,
    F15 + F16 == F11 and F11 + F12 + F13 + accessible == F4 + F8 + F14 + F18
    hold as float comparisons, no tolerance needed. *)
Theorem binary64_conservation (z : Z) :
  (0 <= z <= 100)%Z ->
  exists s, update_scenario (T := spec_float) (num z) = Ok s /\
    SFeqb (add (flow (flows s) "F7") (flow (flows s) "F6")) (num 3300) = true /\
    SFeqb (add (add (flow (flows s) "F8") (flow (flows s) "F9")) (flow (flows s) "F10"))
          (flow (flows s) "F6") = true /\
    SFeqb (add (flow (flows s) "F15") (flow (flows s) "F16")) (flow (flows s) "F11")
      = true /\
    SFeqb (add (add (add (flow (flows s) "F11") (flow (flows s) "F12"))
                    (flow (flows s) "F13")) (accessible_pool s))
          (add (add (add (flow (flows s) "F4") (flow (flows s) "F8"))
                    (flow (flows s) "F14")) (flow (flows s) "F18")) = true.
Proof.
  intros Hz.
  assert (Hc : b64_conserves_at z = true)
    by (apply (Z_below_forallb _ 101 z b64_conserves_slider); lia).
  unfold b64_conserves_at in Hc.
  destruct (update_scenario (T := spec_float) (num z)) as [s | e]; [| discriminate Hc].
  exists s. split; [reflexivity |].
  unfold b64_conserves in Hc. rewrite !andb_true_iff in Hc.
  destruct Hc as [[[H1 H2] H3] H4]. by repeat split.
Qed.

Lemma binary64_conservation_witness :
  (0 <= 33 <= 100)%Z /\
  exists s, update_scenario (T := spec_float) (num 33) = Ok s /\
    SFeqb (add (flow (flows s) "F7") (flow (flows s) "F6")) (num 3300) = true /\
    SFeqb (add (add (flow (flows s) "F8") (flow (flows s) "F9")) (flow (flows s) "F10"))
          (flow (flows s) "F6") = true /\
    SFeqb (add (flow (flows s) "F15") (flow (flows s) "F16")) (flow (flows s) "F11")
      = true /\
    SFeqb (add (add (add (flow (flows s) "F11") (flow (flows s) "F12"))
                    (flow (flows s) "F13")) (accessible_pool s))
          (add (add (add (flow (flows s) "F4") (flow (flows s) "F8"))
                    (flow (flows s) "F14")) (flow (flows s) "F18")) = true.
Proof.
  assert (Hr : (0 <= 33 <= 100)%Z) by lia.
  split; [exact Hr | exact (binary64_conservation 33 Hr)].
Defined.

(** The exact cascade is what the floats compute at the positions of the
    slider: for every integer percent from 0 to 100 each flow of the
    binary64 output is a finite float, equal as a rational to the flow of
    the exact output at every key but F7, where the two differ by at most
    1e-12. *)
Theorem binary64_matches_exact (z : Z) :
  (0 <= z <= 100)%Z ->
  exists sb sq,
    update_scenario (T := spec_float) (num z) = Ok sb /\
    update_scenario (T := Q) (inject_Z z) = Ok sq /\
    forall k, k ∈ FLOW_KEYS ->
      exists q, b64_to_Q (flow (flows sb) k) = Some q /\
        (k <> "F7" -> q == flow (flows sq) k) /\
        Qabs (q - flow (flows sq) k) <= 1 # 1000000000000.
Proof.
  intros Hz.
  assert (Hc : b64_matches_at z = true)
    by (apply (Z_below_forallb _ 101 z b64_matches_slider); lia).
  unfold b64_matches_at in Hc.
  destruct (update_scenario (T := spec_float) (num z)) as [sb | e]; [| discriminate Hc].
  change (update_scenario (T := Q) (num z)) with (update_scenario (T := Q) (inject_Z z)) in Hc.
  destruct (update_scenario (T := Q) (inject_Z z)) as [sq | e]; [| discriminate Hc].
  exists sb, sq. split; [reflexivity |]. split; [reflexivity |].
  intros k Hk. unfold b64_matches in Hc. rewrite forallb_forall in Hc.
  specialize (Hc k (proj1 (list_elem_of_In _ _) Hk)).
  destruct (b64_to_Q (flow (flows sb) k)) as [q |]; [| discriminate Hc].
  exists q. split; [reflexivity |].
  destruct (String.eqb k "F7") eqn:E.
  - apply String.eqb_eq in E. apply Qle_bool_iff in Hc. split; [congruence | exact Hc].
  - apply Qeq_bool_iff in Hc. split; [intros _; exact Hc |].
    assert (E0 : q - flow (flows sq) k == 0) by (rewrite Hc; ring).
    rewrite E0. discriminate.
Qed.

Lemma binary64_matches_exact_witness :
  (0 <= 33 <= 100)%Z /\
  exists sb sq,
    update_scenario (T := spec_float) (num 33) = Ok sb /\
    update_scenario (T := Q) (inject_Z 33) = Ok sq /\
    forall k, k ∈ FLOW_KEYS ->
      exists q, b64_to_Q (flow (flows sb) k) = Some q /\
        (k <> "F7" -> q == flow (flows sq) k) /\
        Qabs (q - flow (flows sq) k) <= 1 # 1000000000000.
Proof.
  assert (Hr : (0 <= 33 <= 100)%Z) by lia.
  split; [exact Hr | exact (binary64_matches_exact 33 Hr)].
Defined.

(** On floats too the three callbacks agree at the positions of the
    slider: for every integer percent from 0 to 100 the deployed variant,
    which computes the saved nitrogen as [F7 * r] instead of
    [F7 - F7 * (1 - r)], returns bit for bit the table of the interactive
    one, and the cascading variant has the same F6 and F7. *)
Theorem binary64_variants_agree (z : Z) :
  (0 <= z <= 100)%Z ->
  exists ti mi td md s,
    Interactive.update_scenario (T := spec_float) (num z) = Ok (ti, mi) /\
    Deployed.update_scenario (T := spec_float) (num z) = Ok (td, md) /\
    update_scenario (T := spec_float) (num z) = Ok s /\
    (forall k, k ∈ FLOW_KEYS -> flow td k = flow ti k) /\
    flow (flows s) "F6" = flow ti "F6" /\
    flow (flows s) "F7" = flow ti "F7".
Proof.
  intros Hz.
  assert (Hc : b64_variants_agree_at z = true)
    by (apply (Z_below_forallb _ 101 z b64_variants_agree_slider); lia).
  unfold b64_variants_agree_at in Hc.
  destruct (Interactive.update_scenario (T := spec_float) (num z)) as [[ti mi] | e];
    [| discriminate Hc].
  destruct (Deployed.update_scenario (T := spec_float) (num z)) as [[td md] | e];
    [| discriminate Hc].
  destruct (update_scenario (T := spec_float) (num z)) as [s | e]; [| discriminate Hc].
  exists ti, mi, td, md, s. do 3 (split; [reflexivity |]).
  rewrite !andb_true_iff in Hc. destruct Hc as [[Ht H6] H7].
  split; [| split; by apply b64_identical_eq].
  intros k Hk. unfold b64_same_table in Ht. rewrite forallb_forall in Ht.
  apply b64_identical_eq, Ht. by apply list_elem_of_In.
Qed.

Lemma binary64_variants_agree_witness :
  (0 <= 33 <= 100)%Z /\
  exists ti mi td md s,
    Interactive.update_scenario (T := spec_float) (num 33) = Ok (ti, mi) /\
    Deployed.update_scenario (T := spec_float) (num 33) = Ok (td, md) /\
    update_scenario (T := spec_float) (num 33) = Ok s /\
    (forall k, k ∈ FLOW_KEYS -> flow td k = flow ti k) /\
    flow (flows s) "F6" = flow ti "F6" /\
    flow (flows s) "F7" = flow ti "F7".
Proof.
  assert (Hr : (0 <= 33 <= 100)%Z) by lia.
  split; [exact Hr | exact (binary64_variants_agree 33 Hr)].
Defined.

(** ** The callback on floats, for any percent *)

Lemma b64_partition_fractions_baseline :
  partition_fractions BASE_FLOWS_N = Ok B64_FRACTIONS.
Proof. vm_compute. reflexivity. Qed.

Lemma b64_update_scenario_run (p : spec_float) :
  update_scenario p = Ok (run B64_FRACTIONS p).
Proof.
  unfold update_scenario. rewrite b64_partition_fractions_baseline.
  apply update_scenario_with_run. reflexivity.
Qed.

Lemma int_to_float_raise (z : Z) (e : exn) :
  int_to_float z = Raise e -> e = OverflowError.
Proof.
  unfold int_to_float. destruct (b64_of_Z z); intros Hc;
    first [discriminate Hc | by injection Hc].
Qed.

Lemma as_float_raise (v : pynum) (e : exn) :
  as_float v = Raise e -> e = OverflowError /\ exists z, v = PyInt z.
Proof.
  destruct v as [z | f]; cbn [as_float]; intros Hc; [| discriminate Hc].
  split; [by apply (int_to_float_raise z) | by exists z].
Qed.

Section FiguresRun.

Context {T : Type} `{PyNumber T}.

Local Open Scope py_scope.

Variable P : Partitions T.
Variable percent : T.

Hypothesis fractions_of_baseline : partition_fractions BASE_FLOWS_N = Ok P.
Hypothesis hundred_nonzero : is_zero (num 100) = false.
Hypothesis input_nonzero : is_zero (num 4800 + num 300 + num 0) = false.

Lemma run_flows_keys : has_keys (run_flows P percent) FLOW_KEYS.
Proof using Type.
  intros k Hin. apply elem_of_dom.
  replace (dom (run_flows P percent)) with (list_to_set FLOW_KEYS : gset string)
    by (symmetry; apply run_flows_dom).
  by apply elem_of_list_to_set.
Qed.

Lemma update_scenario_figures_any :
  exists fig bars,
    update_scenario_figures percent = Ok (run P percent, fig, bars) /\
    make_sankey_figure (run_flows P percent) = Ok fig /\
    make_circularity_bar_figure (run_metrics P percent) = Ok bars /\
    length (value fig) = 20%nat /\ length bars = 3%nat.
Proof using fractions_of_baseline hundred_nonzero input_nonzero.
  assert (Hs : make_sankey_figure (run_flows P percent) =
    Ok {| label := NODES;
          source := [0; 1; 3; 4; 2; 2; 2; 5; 5; 5; 6; 6; 6; 7; 8; 8; 2; 12; 12; 12]%nat;
          target := [2; 2; 2; 6; 9; 5; 11; 6; 7; 11; 8; 11; 7; 6; 1; 10; 12; 6; 9; 11]%nat;
          value := map (flow (run_flows P percent)) FLOW_KEYS |}).
  { rewrite make_sankey_figure_values, mapM_getitem_keys by apply run_flows_keys.
    reflexivity. }
  assert (Hb : make_circularity_bar_figure (run_metrics P percent) =
    Ok [ div (circular_N (run_metrics P percent)) (num 4800 + num 300 + num 0) * num 100;
         div (accessible_N (run_metrics P percent)) (num 4800 + num 300 + num 0) * num 100;
         div (lost_N (run_metrics P percent)) (num 4800 + num 300 + num 0) * num 100 ]).
  { unfold make_circularity_bar_figure, truediv. cbn [input_N run_metrics].
    rewrite input_nonzero. reflexivity. }
  do 2 eexists. split; [| split; [exact Hs | split; [exact Hb | split; reflexivity]]].
  unfold update_scenario_figures, update_scenario.
  rewrite fractions_of_baseline. cbn [mbind result_bind].
  rewrite update_scenario_with_run by exact hundred_nonzero.
  cbn [mbind result_bind flows metrics run]. rewrite Hs. cbn [mbind result_bind].
  rewrite Hb. reflexivity.
Qed.

End FiguresRun.

Lemma b64_update_scenario_figures_run (p : spec_float) :
  exists fig bars,
    update_scenario_figures p = Ok (run B64_FRACTIONS p, fig, bars) /\
    make_sankey_figure (run_flows B64_FRACTIONS p) = Ok fig /\
    make_circularity_bar_figure (run_metrics B64_FRACTIONS p) = Ok bars /\
    length (value fig) = 20%nat /\ length bars = 3%nat.
Proof.
  apply update_scenario_figures_any;
    [exact b64_partition_fractions_baseline | reflexivity | reflexivity].
Qed.

(** C7, amended. The cascade has no check of the range.  Called with any
    float, or with any [int] that converts to a float, inside [0,100] or
    not, it returns a flow table with the twenty keys; its one error is
    the [OverflowError] of the conversion in
    [housing_reduction_percent / 100.0], for an [int] beyond the floats. *)
Theorem cascade_has_no_range_check :
  (forall f : spec_float,
     exists s, update_scenario_py (PyFloat f) = Ok s /\
       dom (flows s) = list_to_set FLOW_KEYS) /\
  (forall z f, int_to_float z = Ok f ->
     exists s, update_scenario_py (PyInt z) = Ok s /\
       dom (flows s) = list_to_set FLOW_KEYS) /\
  (forall z, int_to_float z = Raise OverflowError ->
     update_scenario_py (PyInt z) = Raise OverflowError) /\
  (forall v e, update_scenario_py v = Raise e ->
     e = OverflowError /\ exists z, v = PyInt z).
Proof.
  split; [| split; [| split]].
  - intros f. exists (run B64_FRACTIONS f).
    split; [apply b64_update_scenario_run | apply run_flows_dom].
  - intros z f Hf. exists (run B64_FRACTIONS f). unfold update_scenario_py.
    cbn [as_float]. rewrite Hf. cbn [mbind result_bind].
    split; [apply b64_update_scenario_run | apply run_flows_dom].
  - intros z Hz. unfold update_scenario_py. cbn [as_float]. rewrite Hz. reflexivity.
  - intros v e He. unfold update_scenario_py in He.
    destruct (as_float v) as [p | e'] eqn:Hv; cbn [mbind result_bind] in He.
    + rewrite b64_update_scenario_run in He. discriminate He.
    + injection He as <-. by apply as_float_raise.
Qed.

Lemma cascade_has_no_range_check_witness :
  (int_to_float 150 = Ok (num 150) /\
   exists s, update_scenario_py (PyInt 150) = Ok s /\
     dom (flows s) = list_to_set FLOW_KEYS) /\
  (int_to_float (10 ^ 400) = Raise OverflowError /\
   update_scenario_py (PyInt (10 ^ 400)) = Raise OverflowError).
Proof.
  assert (H1 : int_to_float 150 = Ok (num 150)) by (vm_compute; reflexivity).
  assert (H2 : int_to_float (10 ^ 400) = Raise OverflowError) by (vm_compute; reflexivity).
  split.
  - split; [exact H1 |].
    exact (proj1 (proj2 cascade_has_no_range_check) 150%Z (num 150) H1).
  - split; [exact H2 |].
    exact (proj1 (proj2 (proj2 cascade_has_no_range_check)) (10 ^ 400)%Z H2).
Defined.

Lemma b64_BASE_FLOWS_N_has_keys : has_keys (BASE_FLOWS_N (T := spec_float)) FLOW_KEYS.
Proof.
  intros k Hk. apply elem_of_dom.
  replace (dom (BASE_FLOWS_N (T := spec_float)))
    with (list_to_set FLOW_KEYS : gset string)
    by (symmetry; apply BASE_FLOWS_N_dom).
  by apply elem_of_list_to_set.
Defined.

(** ** The metrics functions on Python's own numbers *)

Lemma pynum_add_raise (a b : pynum) (e : exn) :
  pynum_add a b = Raise e -> e = OverflowError.
Proof.
  destruct a as [x | f], b as [y | g]; cbn [pynum_add as_float mbind result_bind];
    intros Hc; try discriminate Hc.
  - destruct (int_to_float x) eqn:Hx; cbn [mbind result_bind] in Hc; [discriminate Hc |].
    injection Hc as <-. by apply (int_to_float_raise x).
  - destruct (int_to_float y) eqn:Hy; cbn [mbind result_bind] in Hc; [discriminate Hc |].
    injection Hc as <-. by apply (int_to_float_raise y).
Qed.

Lemma pynum_sub_raise (a b : pynum) (e : exn) :
  pynum_sub a b = Raise e -> e = OverflowError.
Proof.
  destruct a as [x | f], b as [y | g]; cbn [pynum_sub as_float mbind result_bind];
    intros Hc; try discriminate Hc.
  - destruct (int_to_float x) eqn:Hx; cbn [mbind result_bind] in Hc; [discriminate Hc |].
    injection Hc as <-. by apply (int_to_float_raise x).
  - destruct (int_to_float y) eqn:Hy; cbn [mbind result_bind] in Hc; [discriminate Hc |].
    injection Hc as <-. by apply (int_to_float_raise y).
Qed.

(** The statements of a metrics function that ended in [e], one by one:
    a subscript of an absent key, or an addition that overflowed. *)
Ltac py_raise_cases Hm t :=
  repeat match type of Hm with
  | context [ t !! ?key ] =>
      destruct (t !! key) eqn:?; cbn [mbind result_bind] in Hm;
      [| injection Hm as <-; right; exists key;
         split; [reflexivity | split; [key_in_list | assumption]]]
  | context [ pynum_add ?a ?b ] =>
      let Ha := fresh "Ha" in
      destruct (pynum_add a b) eqn:Ha; cbn [mbind result_bind] in Hm;
      [| injection Hm as <-; left; exact (pynum_add_raise _ _ _ Ha)]
  | context [ pynum_sub ?a ?b ] =>
      let Ha := fresh "Ha" in
      destruct (pynum_sub a b) eqn:Ha; cbn [mbind result_bind] in Hm;
      [| injection Hm as <-; left; exact (pynum_sub_raise _ _ _ Ha)]
  end.

(** The statements of a metrics function that returned. *)
Ltac py_ok_cases Hm t :=
  repeat match type of Hm with
  | context [ t !! ?key ] =>
      destruct (t !! key) eqn:?; cbn [mbind result_bind] in Hm; [| discriminate Hm]
  | context [ pynum_add ?a ?b ] =>
      destruct (pynum_add a b); cbn [mbind result_bind] in Hm; [| discriminate Hm]
  | context [ pynum_sub ?a ?b ] =>
      destruct (pynum_sub a b); cbn [mbind result_bind] in Hm; [| discriminate Hm]
  end.

Lemma py_metrics_raise (t : gmap string pynum) (e : exn) :
  Py.compute_circularity_metrics_N t = Raise e ->
  e = OverflowError \/ exists k, e = KeyError k /\ k ∈ READ_KEYS /\ t !! k = None.
Proof.
  unfold Py.compute_circularity_metrics_N, getitem. intros Hm.
  py_raise_cases Hm t.
  discriminate Hm.
Qed.

Lemma py_metrics_ok_keys (t : gmap string pynum) (m : Metrics pynum) :
  Py.compute_circularity_metrics_N t = Ok m -> has_keys t READ_KEYS.
Proof.
  unfold Py.compute_circularity_metrics_N, getitem. intros Hm k Hin.
  py_ok_cases Hm t.
  unfold READ_KEYS in Hin.
  repeat (apply elem_of_cons in Hin as [-> | Hin]; [eauto |]).
  apply elem_of_nil in Hin. destruct Hin.
Qed.

Lemma py_metrics_missing (t : gmap string pynum) :
  (exists k, k ∈ READ_KEYS /\ t !! k = None) ->
  exists e, Py.compute_circularity_metrics_N t = Raise e.
Proof.
  intros (k & Hin & Hnone).
  destruct (Py.compute_circularity_metrics_N t) as [m | e] eqn:Hm; [| by exists e].
  apply py_metrics_ok_keys in Hm. destruct (Hm k Hin) as [v Hv]. congruence.
Qed.

(** On a table of floats the function is the one written over the number
    interface, read at binary64. *)
Lemma py_metrics_floats (tb : gmap string spec_float) :
  Py.compute_circularity_metrics_N (PyFloat <$> tb) =
    match compute_circularity_metrics_N tb with
    | Ok m => Ok (Metrics_map PyFloat m)
    | Raise e => Raise e
    end.
Proof.
  unfold Py.compute_circularity_metrics_N, compute_circularity_metrics_N, getitem.
  rewrite !lookup_fmap.
  repeat match goal with
  | |- context [ tb !! ?key ] =>
      destruct (tb !! key) eqn:?;
      cbn [fmap option_fmap option_map mbind result_bind mret result_ret
           pynum_add as_float];
      [| reflexivity]
  end.
  unfold Metrics_map, pynum_min, py_min, Py.ACCESSIBLE_TARGET, ACCESSIBLE_TARGET.
  cbn [input_N circular_N accessible_N lost_N env_loss locked_stable pynum_lt
       pynum_sub as_float mbind result_bind].
  match goal with |- context [ lt ?a ?b ] => destruct (lt a b) end; reflexivity.
Qed.

Lemma py_metrics_ints_raise (tz : gmap string Z) (e : exn) :
  Py.compute_circularity_metrics_N (PyInt <$> tz) = Raise e ->
  exists k, e = KeyError k /\ k ∈ READ_KEYS /\ tz !! k = None.
Proof.
  unfold Py.compute_circularity_metrics_N, getitem. rewrite !lookup_fmap. intros Hm.
  repeat match type of Hm with
  | context [ tz !! ?key ] =>
      destruct (tz !! key) eqn:?;
      cbn [fmap option_fmap option_map mbind result_bind pynum_add pynum_sub] in Hm;
      [| injection Hm as <-; exists key;
         split; [reflexivity | split; [key_in_list | assumption]]]
  end.
  discriminate Hm.
Qed.

Lemma py_metrics_ints_ok (tz : gmap string Z) :
  has_keys tz READ_KEYS ->
  exists m, Py.compute_circularity_metrics_N (PyInt <$> tz) = Ok m.
Proof.
  intros Hk.
  destruct (Py.compute_circularity_metrics_N (PyInt <$> tz)) as [m | e] eqn:Hm;
    [by exists m |].
  apply py_metrics_ints_raise in Hm as (k & _ & Hin & Hnone).
  destruct (Hk k Hin) as [v Hv]. congruence.
Qed.

(** C9, amended. The metrics function reads fifteen of the twenty keys
    (F2, F6, F11, F15 and F17 are never read) and checks nothing.  On any
    table of [int]s and [float]s its error is the [KeyError] of a key it
    reads and the table lacks, or the [OverflowError] of an addition in
    which an [int] beyond the floats meets a [float]; a table that lacks a
    key it reads never gives a result.  On a table of floats, and on a
    table of [int]s, it ends in a [KeyError] exactly when the table lacks
    one of the fifteen keys, it has no other error, and with all twenty
    keys it returns its result; on floats that result is the one of the
    function read at binary64.  The baseline of the module gives input
    5100, circular 3000, accessible 50.0, lost 2050; the baseline with
    F1 = 10^400 and F3 = 0.5 holds all twenty keys and ends in
    [OverflowError]. *)
Theorem metrics_key_error :
  (forall (t : gmap string pynum) (e : exn),
     Py.compute_circularity_metrics_N t = Raise e ->
     e = OverflowError \/
     exists k, e = KeyError k /\ k ∈ READ_KEYS /\ t !! k = None) /\
  (forall t : gmap string pynum,
     (exists k, k ∈ READ_KEYS /\ t !! k = None) ->
     exists e, Py.compute_circularity_metrics_N t = Raise e) /\
  (forall tb : gmap string spec_float,
     ((exists k, Py.compute_circularity_metrics_N (PyFloat <$> tb) = Raise (KeyError k))
      <-> (exists k, k ∈ READ_KEYS /\ tb !! k = None)) /\
     (has_keys tb FLOW_KEYS ->
      exists m, compute_circularity_metrics_N tb = Ok m /\
        Py.compute_circularity_metrics_N (PyFloat <$> tb) = Ok (Metrics_map PyFloat m)) /\
     (forall e, Py.compute_circularity_metrics_N (PyFloat <$> tb) = Raise e ->
        exists k, e = KeyError k /\ k ∈ READ_KEYS /\ tb !! k = None)) /\
  (forall tz : gmap string Z,
     ((exists k, Py.compute_circularity_metrics_N (PyInt <$> tz) = Raise (KeyError k))
      <-> (exists k, k ∈ READ_KEYS /\ tz !! k = None)) /\
     (has_keys tz FLOW_KEYS ->
      exists m, Py.compute_circularity_metrics_N (PyInt <$> tz) = Ok m) /\
     (forall e, Py.compute_circularity_metrics_N (PyInt <$> tz) = Raise e ->
        exists k, e = KeyError k /\ k ∈ READ_KEYS /\ tz !! k = None)) /\
  Py.compute_circularity_metrics_N Py.BASE_FLOWS_N =
    Ok {| input_N := PyInt 5100; circular_N := PyInt 3000;
          accessible_N := PyFloat (num 50); lost_N := PyInt 2050;
          env_loss := PyInt 1550; locked_stable := PyInt 500 |} /\
  (let t := <["F1" := PyInt (10 ^ 400)]>
              (<["F3" := PyFloat (div (num 1) (num 2))]> Py.BASE_FLOWS_N) in
   has_keys t FLOW_KEYS /\
   Py.compute_circularity_metrics_N t = Raise OverflowError).
Proof.
  split; [exact py_metrics_raise |]. split; [exact py_metrics_missing |].
  split; [| split; [| split]].
  - intros tb. rewrite py_metrics_floats. split; [split |]; [| | split].
    + intros [k Hk].
      destruct (compute_circularity_metrics_N tb) as [m | e] eqn:Hm; [discriminate Hk |].
      apply compute_metrics_raise_key in Hm as (k' & _ & Hin & Hnone). by exists k'.
    + intros (k & Hin & Hnone).
      destruct (compute_circularity_metrics_N tb) as [m | e] eqn:Hm.
      * apply compute_metrics_ok_keys in Hm. destruct (Hm k Hin) as [v Hv]. congruence.
      * apply compute_metrics_raise_key in Hm as (k' & -> & _). by exists k'.
    + intros Hk.
      destruct (compute_metrics_has_keys tb) as [m Hm].
      { intros k Hin. apply Hk. by apply READ_KEYS_FLOW_KEYS. }
      exists m. by rewrite Hm.
    + intros e He.
      destruct (compute_circularity_metrics_N tb) as [m | e'] eqn:Hm; [discriminate He |].
      injection He as <-. by apply compute_metrics_raise_key.
  - intros tz. split; [split |]; [| | split].
    + intros [k Hk]. apply py_metrics_ints_raise in Hk as (k' & _ & Hin & Hnone).
      by exists k'.
    + intros (k & Hin & Hnone).
      destruct (Py.compute_circularity_metrics_N (PyInt <$> tz)) as [m | e] eqn:Hm.
      * apply py_metrics_ok_keys in Hm. destruct (Hm k Hin) as [v Hv].
        rewrite lookup_fmap, Hnone in Hv. discriminate Hv.
      * apply py_metrics_ints_raise in Hm as (k' & -> & _). by exists k'.
    + intros Hk. apply py_metrics_ints_ok.
      intros k Hin. apply Hk. by apply READ_KEYS_FLOW_KEYS.
    + apply py_metrics_ints_raise.
  - vm_compute. reflexivity.
  - cbv zeta. split; [| vm_compute; reflexivity].
    intros k Hk. unfold FLOW_KEYS in Hk.
    repeat (apply elem_of_cons in Hk as [-> | Hk]; [vm_compute; eauto |]).
    apply elem_of_nil in Hk. destruct Hk.
Qed.

Lemma metrics_key_error_witness :
  has_keys (BASE_FLOWS_N (T := spec_float)) FLOW_KEYS /\
  exists m, compute_circularity_metrics_N (BASE_FLOWS_N (T := spec_float)) = Ok m /\
    Py.compute_circularity_metrics_N (PyFloat <$> BASE_FLOWS_N) = Ok (Metrics_map PyFloat m).
Proof.
  split; [exact b64_BASE_FLOWS_N_has_keys |].
  exact (proj1 (proj2 (proj1 (proj2 (proj2 metrics_key_error)) BASE_FLOWS_N))
           b64_BASE_FLOWS_N_has_keys).
Defined.

Lemma py_toy_metrics_raise (t : gmap string pynum) (e : exn) :
  PyInteractive.compute_circularity_metrics_N t = Raise e ->
  e = OverflowError \/ exists k, e = KeyError k /\ k ∈ TOY_READ_KEYS /\ t !! k = None.
Proof.
  unfold PyInteractive.compute_circularity_metrics_N, getitem. intros Hm.
  py_raise_cases Hm t.
  discriminate Hm.
Qed.

Lemma py_toy_metrics_ok_keys (t : gmap string pynum) (m : Metrics pynum) :
  PyInteractive.compute_circularity_metrics_N t = Ok m -> has_keys t TOY_READ_KEYS.
Proof.
  unfold PyInteractive.compute_circularity_metrics_N, getitem. intros Hm k Hin.
  py_ok_cases Hm t.
  unfold TOY_READ_KEYS in Hin.
  repeat (apply elem_of_cons in Hin as [-> | Hin]; [eauto |]).
  apply elem_of_nil in Hin. destruct Hin.
Qed.

Lemma py_toy_metrics_floats (tb : gmap string spec_float) :
  PyInteractive.compute_circularity_metrics_N (PyFloat <$> tb) =
    match Interactive.compute_circularity_metrics_N tb with
    | Ok m => Ok (Metrics_map PyFloat m)
    | Raise e => Raise e
    end.
Proof.
  unfold PyInteractive.compute_circularity_metrics_N,
    Interactive.compute_circularity_metrics_N, getitem.
  rewrite !lookup_fmap.
  repeat match goal with
  | |- context [ tb !! ?key ] =>
      destruct (tb !! key) eqn:?;
      cbn [fmap option_fmap option_map mbind result_bind mret result_ret
           pynum_add as_float];
      [| reflexivity]
  end.
  reflexivity.
Qed.

(** The metrics function of the earlier variants reads ten keys.  On any
    table of [int]s and [float]s its error is the [KeyError] of a key it
    reads and the table lacks, or the [OverflowError] of an addition in
    which an [int] beyond the floats meets a [float]; a table that lacks a
    key it reads never gives a result.  On a table of floats it ends in a
    [KeyError] exactly when the table lacks one of the ten keys and has no
    other error, and the copy in the deployed variant is the same
    function.  A table of [int]s does not exclude the overflow: the
    baseline with F7 = 10^400 ends in [OverflowError] at
    [env_loss + locked_stable], where [locked_stable] is [500.0]. *)
Theorem toy_metrics_key_error :
  (forall (t : gmap string pynum) (e : exn),
     PyInteractive.compute_circularity_metrics_N t = Raise e ->
     e = OverflowError \/
     exists k, e = KeyError k /\ k ∈ TOY_READ_KEYS /\ t !! k = None) /\
  (forall t : gmap string pynum,
     (exists k, k ∈ TOY_READ_KEYS /\ t !! k = None) ->
     exists e, PyInteractive.compute_circularity_metrics_N t = Raise e) /\
  (forall tb : gmap string spec_float,
     ((exists k,
         PyInteractive.compute_circularity_metrics_N (PyFloat <$> tb) = Raise (KeyError k))
      <-> (exists k, k ∈ TOY_READ_KEYS /\ tb !! k = None)) /\
     (forall e, PyInteractive.compute_circularity_metrics_N (PyFloat <$> tb) = Raise e ->
        exists k, e = KeyError k /\ k ∈ TOY_READ_KEYS /\ tb !! k = None) /\
     Deployed.compute_circularity_metrics_N tb
       = Interactive.compute_circularity_metrics_N tb) /\
  (let t := <["F7" := PyInt (10 ^ 400)]> Py.BASE_FLOWS_N in
   has_keys t FLOW_KEYS /\
   PyInteractive.compute_circularity_metrics_N t = Raise OverflowError).
Proof.
  split; [exact py_toy_metrics_raise |]. split; [| split].
  - intros t (k & Hin & Hnone).
    destruct (PyInteractive.compute_circularity_metrics_N t) as [m | e] eqn:Hm;
      [| by exists e].
    apply py_toy_metrics_ok_keys in Hm. destruct (Hm k Hin) as [v Hv]. congruence.
  - intros tb. rewrite py_toy_metrics_floats. split; [split |]; [| | split].
    + intros [k Hk].
      destruct (Interactive.compute_circularity_metrics_N tb) as [m | e] eqn:Hm;
        [discriminate Hk |].
      apply toy_metrics_raise_key in Hm as (k' & _ & Hin & Hnone). by exists k'.
    + intros (k & Hin & Hnone).
      destruct (Interactive.compute_circularity_metrics_N tb) as [m | e] eqn:Hm.
      * apply toy_metrics_ok_keys in Hm. destruct (Hm k Hin) as [v Hv]. congruence.
      * apply toy_metrics_raise_key in Hm as (k' & -> & _). by exists k'.
    + intros e He.
      destruct (Interactive.compute_circularity_metrics_N tb) as [m | e'] eqn:Hm;
        [discriminate He |].
      injection He as <-. by apply toy_metrics_raise_key.
    + reflexivity.
  - cbv zeta. split; [| vm_compute; reflexivity].
    intros k Hk. unfold FLOW_KEYS in Hk.
    repeat (apply elem_of_cons in Hk as [-> | Hk]; [vm_compute; eauto |]).
    apply elem_of_nil in Hk. destruct Hk.
Qed.

Lemma toy_metrics_key_error_witness :
  let t : gmap string pynum := delete "F7" Py.BASE_FLOWS_N in
  (exists k, k ∈ TOY_READ_KEYS /\ t !! k = None) /\
  exists e, PyInteractive.compute_circularity_metrics_N t = Raise e.
Proof.
  cbv zeta.
  assert (Hk : exists k, k ∈ TOY_READ_KEYS /\
                 delete "F7" Py.BASE_FLOWS_N !! k = None)
    by (exists "F7"; split; [key_in_list | vm_compute; reflexivity]).
  split; [exact Hk |].
  exact (proj1 (proj2 toy_metrics_key_error) (delete "F7" Py.BASE_FLOWS_N) Hk).
Defined.

(** The whole callback on floats: called with any float, or with any
    [int] that converts to a float, it computes its table and metrics and
    the numbers of both figures, twenty link values and three bars, and
    none of its lookups or operations raises; its one error is the
    [OverflowError] of converting an [int] beyond the floats. *)
Theorem callback_fails_only_on_overflow :
  (forall f : spec_float,
     exists s fig bars, update_scenario_figures_py (PyFloat f) = Ok (s, fig, bars) /\
       update_scenario f = Ok s /\
       make_sankey_figure (flows s) = Ok fig /\
       make_circularity_bar_figure (metrics s) = Ok bars /\
       length (value fig) = 20%nat /\ length bars = 3%nat) /\
  (forall z f, int_to_float z = Ok f ->
     exists s fig bars, update_scenario_figures_py (PyInt z) = Ok (s, fig, bars) /\
       length (value fig) = 20%nat /\ length bars = 3%nat) /\
  (forall v e, update_scenario_figures_py v = Raise e ->
     e = OverflowError /\ exists z, v = PyInt z).
Proof.
  split; [| split].
  - intros f.
    destruct (b64_update_scenario_figures_run f) as (fig & bars & Hr & Hs & Hb & Hl).
    exists (run B64_FRACTIONS f), fig, bars.
    split; [exact Hr |]. split; [apply b64_update_scenario_run |].
    split; [exact Hs |]. split; [exact Hb | exact Hl].
  - intros z f Hf.
    destruct (b64_update_scenario_figures_run f) as (fig & bars & Hr & _ & _ & Hl).
    exists (run B64_FRACTIONS f), fig, bars. unfold update_scenario_figures_py.
    cbn [as_float]. rewrite Hf. cbn [mbind result_bind]. by split.
  - intros v e He. unfold update_scenario_figures_py in He.
    destruct (as_float v) as [p | e'] eqn:Hv; cbn [mbind result_bind] in He.
    + destruct (b64_update_scenario_figures_run p) as (fig & bars & Hr & _).
      rewrite Hr in He. discriminate He.
    + injection He as <-. by apply as_float_raise.
Qed.

Lemma callback_fails_only_on_overflow_witness :
  int_to_float 150 = Ok (num 150) /\
  exists s fig bars, update_scenario_figures_py (PyInt 150) = Ok (s, fig, bars) /\
    length (value fig) = 20%nat /\ length bars = 3%nat.
Proof.
  assert (H1 : int_to_float 150 = Ok (num 150)) by (vm_compute; reflexivity).
  split; [exact H1 |].
  exact (proj1 (proj2 callback_fails_only_on_overflow) 150%Z (num 150) H1).
Defined.

(** ** Exact arithmetic and floats side by side *)

Lemma b64_metrics_slider : forallb b64_metrics_at (Z_below 101) = true.
Proof. vm_compute. reflexivity. Qed.

Lemma b64_bars_slider : forallb b64_bars_at (Z_below 101) = true.
Proof. vm_compute. reflexivity. Qed.

Lemma b64_ordered_slider : forallb b64_ordered_at (Z_below 101) = true.
Proof. vm_compute. reflexivity. Qed.

Lemma b64_tenths : forallb b64_tenth_at (Z_below 1001) = true.
Proof. vm_compute. reflexivity. Qed.

Lemma b64_fractions_sum : b64_fractions_whole B64_FRACTIONS = true.
Proof. vm_compute. reflexivity. Qed.

Lemma b64_is_value (f : spec_float) (q : Q) : b64_is f q = true -> b64_value f q.
Proof.
  unfold b64_is, b64_value. destruct (b64_to_Q f) as [q' |]; [| discriminate].
  intros E. apply Qeq_bool_iff in E. by exists q'.
Qed.

(** What the run at an integer position of the slider satisfies. *)
Lemma b64_metrics_at_slider (z : Z) :
  (0 <= z <= 100)%Z ->
  exists s, update_scenario (T := spec_float) (num z) = Ok s /\
    b64_metrics_closed (metrics s) z = true /\
    b64_inflow_closed s z = true /\
    b64_feed_gap s z = true.
Proof.
  intros Hz.
  assert (Hc : b64_metrics_at z = true)
    by (apply (Z_below_forallb _ 101 z b64_metrics_slider); lia).
  unfold b64_metrics_at in Hc.
  destruct (update_scenario (T := spec_float) (num z)) as [s | e]; [| discriminate Hc].
  exists s. split; [reflexivity |].
  rewrite !andb_true_iff in Hc. destruct Hc as [[H1 H2] H3]. by repeat split.
Qed.

Lemma b64_close_balanced (l r : list spec_float) :
  b64_close l r = true -> b64_balanced l r.
Proof.
  unfold b64_close, b64_balanced.
  destruct (b64_sum l) as [a |]; [| discriminate].
  destruct (b64_sum r) as [b |]; [| discriminate].
  intros Hc. apply Qle_bool_iff in Hc. by exists a, b.
Qed.

(** What the run at a tenth satisfies. *)
Lemma b64_tenth_at_holds (k : Z) :
  (0 <= k <= 1000)%Z ->
  exists s, update_scenario (T := spec_float) (b64_tenth k) = Ok s /\
    b64_conserves_within s = true /\ b64_capped s = true.
Proof.
  intros Hk.
  assert (Hc : b64_tenth_at k = true)
    by (apply (Z_below_forallb _ 1001 k b64_tenths); lia).
  unfold b64_tenth_at in Hc.
  destruct (update_scenario (T := spec_float) (b64_tenth k)) as [s | e];
    [| discriminate Hc].
  exists s. split; [reflexivity |]. by apply andb_true_iff in Hc.
Qed.

Lemma b64_tenth_conserves (k : Z) :
  (0 <= k <= 1000)%Z ->
  exists s, update_scenario (T := spec_float) (b64_tenth k) = Ok s /\
     b64_balanced [flow (flows s) "F7"; flow (flows s) "F6"] [num 3300] /\
     b64_balanced [flow (flows s) "F8"; flow (flows s) "F9"; flow (flows s) "F10"]
                  [flow (flows s) "F6"] /\
     b64_balanced [flow (flows s) "F15"; flow (flows s) "F16"] [flow (flows s) "F11"] /\
     b64_balanced [flow (flows s) "F11"; flow (flows s) "F12"; flow (flows s) "F13";
                   accessible_pool s]
                  [flow (flows s) "F4"; flow (flows s) "F8"; flow (flows s) "F14";
                   flow (flows s) "F18"].
Proof.
  intros Hk. destruct (b64_tenth_at_holds k Hk) as (s & Hs & Hc & _).
  exists s. split; [exact Hs |].
  unfold b64_conserves_within in Hc. cbv zeta in Hc. rewrite !andb_true_iff in Hc.
  destruct Hc as [[[H1 H2] H3] H4].
  split; [by apply b64_close_balanced |]. split; [by apply b64_close_balanced |].
  split; by apply b64_close_balanced.
Qed.

Lemma b64_tenth_capped (k : Z) :
  (0 <= k <= 1000)%Z ->
  exists s, update_scenario (T := spec_float) (b64_tenth k) = Ok s /\
     SFltb (num 50) (C7_in s) = true /\
     accessible_pool s = num 50 /\
     accessible_N (metrics s) = num 50 /\
     SFltb (num 0) (outflow_from_C7 s) = true.
Proof.
  intros Hk. destruct (b64_tenth_at_holds k Hk) as (s & Hs & _ & Hc).
  exists s. split; [exact Hs |].
  unfold b64_capped in Hc. rewrite !andb_true_iff in Hc.
  destruct Hc as [[[H1 H2] H3] H4].
  split; [exact H1 |]. split; [by apply b64_identical_eq |].
  split; [by apply b64_identical_eq | exact H4].
Qed.

(** Any two positions of the slider, in binary64. *)
Lemma b64_ordered (z1 z2 : Z) :
  (0 <= z1)%Z -> (z1 < z2)%Z -> (z2 <= 100)%Z ->
  exists s1 s2,
     update_scenario (T := spec_float) (num z1) = Ok s1 /\
     update_scenario (T := spec_float) (num z2) = Ok s2 /\
     SFltb (flow (flows s2) "F7") (flow (flows s1) "F7") = true /\
     SFltb (flow (flows s1) "F6") (flow (flows s2) "F6") = true.
Proof.
  intros H0 Hlt H100.
  assert (Hc : b64_ordered_at z1 = true)
    by (apply (Z_below_forallb _ 101 z1 b64_ordered_slider); lia).
  unfold b64_ordered_at in Hc.
  apply (Z_below_forallb _ 101 z2) in Hc; [| lia]. cbv beta in Hc.
  destruct (z2 <=? z1)%Z eqn:Hle; [apply Z.leb_le in Hle; lia |].
  apply andb_true_iff in Hc as [H7 H6].
  exists (run B64_FRACTIONS (num z1)), (run B64_FRACTIONS (num z2)).
  split; [apply b64_update_scenario_run |]. split; [apply b64_update_scenario_run |].
  cbn [flows run]. rewrite !flow_run_F7, !flow_run_F6.
  split; [exact H7 | exact H6].
Qed.

(** C1 as stated fails on the floats the code computes with.  At percent
    0.2, inside [0,100], the storage outflows F8 + F9 + F10 add up to
    2401.7999999999997 and the excretion F6 is 2401.8, one unit in the
    last place apart, and the three exact values sum to less than that of
    F6. *)
Lemma conservation_fails_off_slider :
  let p : spec_float := div (num 2) (num 10) in
  p = S754_finite false 7205759403792794 (-55) /\
  lt (num 0) p = true /\ lt p (num 100) = true /\
  exists s, update_scenario p = Ok s /\
    flow (flows s) "F6" = S754_finite false 5281614055184794 (-41) /\
    add (add (flow (flows s) "F8") (flow (flows s) "F9")) (flow (flows s) "F10")
      = S754_finite false 5281614055184793 (-41) /\
    SFeqb (add (add (flow (flows s) "F8") (flow (flows s) "F9")) (flow (flows s) "F10"))
          (flow (flows s) "F6") = false /\
    match b64_to_Q (flow (flows s) "F8"), b64_to_Q (flow (flows s) "F9"),
          b64_to_Q (flow (flows s) "F10"), b64_to_Q (flow (flows s) "F6") with
    | Some q8, Some q9, Some q10, Some q6 => q8 + q9 + q10 < q6
    | _, _, _, _ => False
    end.
Proof.
  cbv zeta. split; [vm_compute; reflexivity |].
  split; [vm_compute; reflexivity |]. split; [vm_compute; reflexivity |].
  exists (run B64_FRACTIONS (div (num 2) (num 10))).
  split; [apply b64_update_scenario_run |].
  split; [vm_compute; reflexivity |]. split; [vm_compute; reflexivity |].
  split; [vm_compute; reflexivity |]. vm_compute. reflexivity.
Qed.

(** C1, amended. Conservation of mass holds in exact arithmetic for every
    percent in [0,100]; on the floats it holds exactly at every integer
    percent from 0 to 100, the positions of the slider, and within 1e-9 at
    every tenth from 0.0 to 100.0.  The table of the cascade keeps F7 + F6
    at the baseline sum, splits F6 into F8 + F9 + F10 and F11 into
    F15 + F16, and F11 + F12 + F13 plus the capped pool is the inflow
    F4 + F8 + F14 + F18.  On the floats the exact equalities are those of
    [==], the baseline sum is 3300 and the capped pool is the callback's
    [accessible_N]; at the tenths the two sides are compared as the exact
    sums of the floats. *)
Theorem conservation_of_mass (p : Q) (z k : Z) :
  0 <= p <= 100 ->
  (0 <= z <= 100)%Z ->
  (0 <= k <= 1000)%Z ->
  (exists s, update_scenario p = Ok s /\
     flow (flows s) "F7" + flow (flows s) "F6"
       == flow BASE_FLOWS_N "F7" + flow BASE_FLOWS_N "F6" /\
     flow (flows s) "F8" + flow (flows s) "F9" + flow (flows s) "F10"
       == flow (flows s) "F6" /\
     flow (flows s) "F15" + flow (flows s) "F16" == flow (flows s) "F11" /\
     flow (flows s) "F11" + flow (flows s) "F12" + flow (flows s) "F13"
       + Qmin 50 (inflow_C7 (flows s)) == inflow_C7 (flows s)) /\
  (exists s, update_scenario (T := spec_float) (num z) = Ok s /\
     SFeqb (add (flow (flows s) "F7") (flow (flows s) "F6")) (num 3300) = true /\
     SFeqb (add (add (flow (flows s) "F8") (flow (flows s) "F9")) (flow (flows s) "F10"))
           (flow (flows s) "F6") = true /\
     SFeqb (add (flow (flows s) "F15") (flow (flows s) "F16")) (flow (flows s) "F11")
       = true /\
     SFeqb (add (add (add (flow (flows s) "F11") (flow (flows s) "F12"))
                     (flow (flows s) "F13")) (accessible_pool s))
           (add (add (add (flow (flows s) "F4") (flow (flows s) "F8"))
                     (flow (flows s) "F14")) (flow (flows s) "F18")) = true) /\
  (exists s, update_scenario (T := spec_float) (b64_tenth k) = Ok s /\
     b64_balanced [flow (flows s) "F7"; flow (flows s) "F6"] [num 3300] /\
     b64_balanced [flow (flows s) "F8"; flow (flows s) "F9"; flow (flows s) "F10"]
                  [flow (flows s) "F6"] /\
     b64_balanced [flow (flows s) "F15"; flow (flows s) "F16"] [flow (flows s) "F11"] /\
     b64_balanced [flow (flows s) "F11"; flow (flows s) "F12"; flow (flows s) "F13";
                   accessible_pool s]
                  [flow (flows s) "F4"; flow (flows s) "F8"; flow (flows s) "F14";
                   flow (flows s) "F18"]).
Proof.
  intros Hp Hz Hk. split; [exact (conservation_of_mass_exact p Hp) |].
  split; [| exact (b64_tenth_conserves k Hk)].
  assert (Hc : b64_conserves_at z = true)
    by (apply (Z_below_forallb _ 101 z b64_conserves_slider); lia).
  unfold b64_conserves_at in Hc.
  destruct (update_scenario (T := spec_float) (num z)) as [s | e]; [| discriminate Hc].
  exists s. split; [reflexivity |].
  unfold b64_conserves in Hc. rewrite !andb_true_iff in Hc.
  destruct Hc as [[[H1 H2] H3] H4].
  split; [exact H1 |]. split; [exact H2 |]. split; [exact H3 | exact H4].
Qed.

Lemma conservation_of_mass_witness :
  0 <= 5 <= 100 /\ (0 <= 33 <= 100)%Z /\ (0 <= 2 <= 1000)%Z /\
  (exists s, update_scenario 5 = Ok s /\
     flow (flows s) "F7" + flow (flows s) "F6"
       == flow BASE_FLOWS_N "F7" + flow BASE_FLOWS_N "F6" /\
     flow (flows s) "F8" + flow (flows s) "F9" + flow (flows s) "F10"
       == flow (flows s) "F6" /\
     flow (flows s) "F15" + flow (flows s) "F16" == flow (flows s) "F11" /\
     flow (flows s) "F11" + flow (flows s) "F12" + flow (flows s) "F13"
       + Qmin 50 (inflow_C7 (flows s)) == inflow_C7 (flows s)) /\
  (exists s, update_scenario (T := spec_float) (num 33) = Ok s /\
     SFeqb (add (flow (flows s) "F7") (flow (flows s) "F6")) (num 3300) = true /\
     SFeqb (add (add (flow (flows s) "F8") (flow (flows s) "F9")) (flow (flows s) "F10"))
           (flow (flows s) "F6") = true /\
     SFeqb (add (flow (flows s) "F15") (flow (flows s) "F16")) (flow (flows s) "F11")
       = true /\
     SFeqb (add (add (add (flow (flows s) "F11") (flow (flows s) "F12"))
                     (flow (flows s) "F13")) (accessible_pool s))
           (add (add (add (flow (flows s) "F4") (flow (flows s) "F8"))
                     (flow (flows s) "F14")) (flow (flows s) "F18")) = true) /\
  (exists s, update_scenario (T := spec_float) (b64_tenth 2) = Ok s /\
     b64_balanced [flow (flows s) "F7"; flow (flows s) "F6"] [num 3300] /\
     b64_balanced [flow (flows s) "F8"; flow (flows s) "F9"; flow (flows s) "F10"]
                  [flow (flows s) "F6"] /\
     b64_balanced [flow (flows s) "F15"; flow (flows s) "F16"] [flow (flows s) "F11"] /\
     b64_balanced [flow (flows s) "F11"; flow (flows s) "F12"; flow (flows s) "F13";
                   accessible_pool s]
                  [flow (flows s) "F4"; flow (flows s) "F8"; flow (flows s) "F14";
                   flow (flows s) "F18"]).
Proof.
  assert (Hp : 0 <= 5 <= 100) by (split; discriminate).
  assert (Hz : (0 <= 33 <= 100)%Z) by lia.
  assert (Hk : (0 <= 2 <= 1000)%Z) by lia.
  split; [exact Hp |]. split; [exact Hz |]. split; [exact Hk |].
  exact (conservation_of_mass 5 33 2 Hp Hz Hk).
Defined.

(** C10 as stated fails on the floats: at percent 0.3 the soil-available
    inflow of the output is 1952.1374999999998, while 1950 + 7.125 * 0.3
    computed in floats is 1952.1375, and the exact value of the inflow is
    below 1950 + 7.125 times the exact value of the percent. *)
Lemma inflow_formula_fails_off_slider :
  let p : spec_float := div (num 3) (num 10) in
  p = S754_finite false 5404319552844595 (-54) /\
  lt (num 0) p = true /\ lt p (num 100) = true /\
  exists s, update_scenario p = Ok s /\
    C7_in s = S754_finite false 8585591521070284 (-42) /\
    add (add (add (flow (flows s) "F4") (flow (flows s) "F8"))
             (flow (flows s) "F14")) (flow (flows s) "F18") = C7_in s /\
    add (num 1950) (mul (div (num 57) (num 8)) p)
      = S754_finite false 8585591521070285 (-42) /\
    SFeqb (C7_in s) (add (num 1950) (mul (div (num 57) (num 8)) p)) = false /\
    match b64_to_Q (C7_in s), b64_to_Q p with
    | Some q, Some qp => q < 1950 + (7125 # 1000) * qp
    | _, _ => False
    end.
Proof.
  cbv zeta. split; [vm_compute; reflexivity |].
  split; [vm_compute; reflexivity |]. split; [vm_compute; reflexivity |].
  exists (run B64_FRACTIONS (div (num 3) (num 10))).
  split; [apply b64_update_scenario_run |].
  split; [vm_compute; reflexivity |]. split; [vm_compute; reflexivity |].
  split; [vm_compute; reflexivity |]. split; [vm_compute; reflexivity |].
  vm_compute. reflexivity.
Qed.

(** C10, amended. In exact arithmetic, for every percent in [0,100], the
    soil-available inflow of the output is 1950 + 7.125 * percent, above
    the cap of 50, so the metrics of the output, like those of the
    baseline, have accessible = 50, and the remainder that is
    redistributed is strictly positive.  On the floats the same holds at
    every integer percent from 0 to 100: the inflow, as the callback has it
    and as it is read back from the table, is the float of value
    1950 + 7.125 * percent, accessible is 50.0 for the output and for the
    baseline, and the remainder is above 0.  At every tenth from 0.0 to
    100.0 the formula of the inflow may be off by rounding, but the inflow
    is above 50.0, the pool and the accessible metric are 50.0 and the
    remainder is above 0. *)
Theorem accessible_constant (p : Q) (z k : Z) :
  0 <= p <= 100 ->
  (0 <= z <= 100)%Z ->
  (0 <= k <= 1000)%Z ->
  (exists s, update_scenario p = Ok s /\
     inflow_C7 (flows s) == 1950 + (7125 # 1000) * p /\
     C7_in s == inflow_C7 (flows s) /\
     50 < inflow_C7 (flows s) /\
     (exists m, compute_circularity_metrics_N (flows s) = Ok m /\
        accessible_N m == 50) /\
     accessible_N (metrics s) == 50 /\
     0 < outflow_from_C7 s /\
     (exists m0, compute_circularity_metrics_N (BASE_FLOWS_N (T := Q)) = Ok m0 /\
        accessible_N m0 == 50)) /\
  (exists s, update_scenario (T := spec_float) (num z) = Ok s /\
     b64_value (C7_in s) (1950 + (7125 # 1000) * inject_Z z) /\
     add (add (add (flow (flows s) "F4") (flow (flows s) "F8"))
              (flow (flows s) "F14")) (flow (flows s) "F18") = C7_in s /\
     compute_circularity_metrics_N (flows s) = Ok (metrics s) /\
     accessible_N (metrics s) = num 50 /\
     SFltb (num 0) (outflow_from_C7 s) = true /\
     (exists m0,
        compute_circularity_metrics_N (BASE_FLOWS_N (T := spec_float)) = Ok m0 /\
        accessible_N m0 = num 50)) /\
  (exists s, update_scenario (T := spec_float) (b64_tenth k) = Ok s /\
     SFltb (num 50) (C7_in s) = true /\
     accessible_pool s = num 50 /\
     accessible_N (metrics s) = num 50 /\
     SFltb (num 0) (outflow_from_C7 s) = true).
Proof.
  intros Hp Hz Hk. split; [exact (accessible_constant_exact p Hp) |].
  split; [| exact (b64_tenth_capped k Hk)].
  destruct (b64_metrics_at_slider z Hz) as (s & Hs & _ & Hin & _).
  exists s. split; [exact Hs |].
  unfold b64_inflow_closed in Hin. rewrite !andb_true_iff in Hin.
  destruct Hin as [[[H1 H2] H3] H4].
  split; [by apply b64_is_value |]. split; [by apply b64_identical_eq |].
  split.
  { rewrite b64_update_scenario_run in Hs. injection Hs as <-.
    apply compute_metrics_run. }
  split; [by apply b64_identical_eq |]. split; [exact H4 |].
  eexists. split; [vm_compute; reflexivity | reflexivity].
Qed.

Lemma accessible_constant_witness :
  0 <= 5 <= 100 /\ (0 <= 33 <= 100)%Z /\ (0 <= 3 <= 1000)%Z /\
  (exists s, update_scenario 5 = Ok s /\
     inflow_C7 (flows s) == 1950 + (7125 # 1000) * 5 /\
     C7_in s == inflow_C7 (flows s) /\
     50 < inflow_C7 (flows s) /\
     (exists m, compute_circularity_metrics_N (flows s) = Ok m /\
        accessible_N m == 50) /\
     accessible_N (metrics s) == 50 /\
     0 < outflow_from_C7 s /\
     (exists m0, compute_circularity_metrics_N (BASE_FLOWS_N (T := Q)) = Ok m0 /\
        accessible_N m0 == 50)) /\
  (exists s, update_scenario (T := spec_float) (num 33) = Ok s /\
     b64_value (C7_in s) (1950 + (7125 # 1000) * inject_Z 33) /\
     add (add (add (flow (flows s) "F4") (flow (flows s) "F8"))
              (flow (flows s) "F14")) (flow (flows s) "F18") = C7_in s /\
     compute_circularity_metrics_N (flows s) = Ok (metrics s) /\
     accessible_N (metrics s) = num 50 /\
     SFltb (num 0) (outflow_from_C7 s) = true /\
     (exists m0,
        compute_circularity_metrics_N (BASE_FLOWS_N (T := spec_float)) = Ok m0 /\
        accessible_N m0 = num 50)) /\
  (exists s, update_scenario (T := spec_float) (b64_tenth 3) = Ok s /\
     SFltb (num 50) (C7_in s) = true /\
     accessible_pool s = num 50 /\
     accessible_N (metrics s) = num 50 /\
     SFltb (num 0) (outflow_from_C7 s) = true).
Proof.
  assert (Hp : 0 <= 5 <= 100) by (split; discriminate).
  assert (Hz : (0 <= 33 <= 100)%Z) by lia.
  assert (Hk : (0 <= 3 <= 1000)%Z) by lia.
  split; [exact Hp |]. split; [exact Hz |]. split; [exact Hk |].
  exact (accessible_constant 5 33 3 Hp Hz Hk).
Defined.

(** The metrics the callback recomputes.  In exact arithmetic, from
    percent 0 upward, the input stays 5100 and accessible stays 50,
    circular is 3000 + 1.875 p, the environmental loss 1550 - 6.75 p, the
    stable soil gain 500 + 1.875 p and lost 2050 - 4.875 p.  On the
    floats, at every integer percent from 0 to 100, the six metrics are
    the floats of exactly these values. *)
Theorem metrics_closed_form (p : Q) (z : Z) :
  0 <= p ->
  (0 <= z <= 100)%Z ->
  (exists s, update_scenario p = Ok s /\
     input_N (metrics s) == 5100 /\
     circular_N (metrics s) == 3000 + (15 # 8) * p /\
     accessible_N (metrics s) == 50 /\
     env_loss (metrics s) == 1550 - (27 # 4) * p /\
     locked_stable (metrics s) == 500 + (15 # 8) * p /\
     lost_N (metrics s) == 2050 - (39 # 8) * p) /\
  (exists s, update_scenario (T := spec_float) (num z) = Ok s /\
     b64_value (input_N (metrics s)) 5100 /\
     b64_value (circular_N (metrics s)) (3000 + (15 # 8) * inject_Z z) /\
     b64_value (accessible_N (metrics s)) 50 /\
     b64_value (env_loss (metrics s)) (1550 - (27 # 4) * inject_Z z) /\
     b64_value (locked_stable (metrics s)) (500 + (15 # 8) * inject_Z z) /\
     b64_value (lost_N (metrics s)) (2050 - (39 # 8) * inject_Z z)).
Proof.
  intros Hp Hz. split; [exact (metrics_closed_form_exact p Hp) |].
  destruct (b64_metrics_at_slider z Hz) as (s & Hs & Hm & _).
  exists s. split; [exact Hs |].
  unfold b64_metrics_closed in Hm. rewrite !andb_true_iff in Hm.
  destruct Hm as [[[[[H1 H2] H3] H4] H5] H6].
  repeat split; by apply b64_is_value.
Qed.

Lemma metrics_closed_form_witness :
  0 <= 50 /\ (0 <= 33 <= 100)%Z /\
  (exists s, update_scenario 50 = Ok s /\
     input_N (metrics s) == 5100 /\
     circular_N (metrics s) == 3000 + (15 # 8) * 50 /\
     accessible_N (metrics s) == 50 /\
     env_loss (metrics s) == 1550 - (27 # 4) * 50 /\
     locked_stable (metrics s) == 500 + (15 # 8) * 50 /\
     lost_N (metrics s) == 2050 - (39 # 8) * 50) /\
  (exists s, update_scenario (T := spec_float) (num 33) = Ok s /\
     b64_value (input_N (metrics s)) 5100 /\
     b64_value (circular_N (metrics s)) (3000 + (15 # 8) * inject_Z 33) /\
     b64_value (accessible_N (metrics s)) 50 /\
     b64_value (env_loss (metrics s)) (1550 - (27 # 4) * inject_Z 33) /\
     b64_value (locked_stable (metrics s)) (500 + (15 # 8) * inject_Z 33) /\
     b64_value (lost_N (metrics s)) (2050 - (39 # 8) * inject_Z 33)).
Proof.
  assert (Hp : 0 <= 50) by discriminate.
  assert (Hz : (0 <= 33 <= 100)%Z) by lia.
  split; [exact Hp |]. split; [exact Hz |].
  exact (metrics_closed_form 50 33 Hp Hz).
Defined.

(** The three categories do not cover the input once the slider moves.
    In exact arithmetic, from percent 0 upward, circular + accessible +
    lost is input - 3 * percent, and the missing 3 * percent is F15 - F2,
    crops to feed against the feed passed on.  On the floats, at every
    integer percent from 0 to 100, the values of the three metrics sum to
    the value of the input less 3 * percent, and the values of F15 and F2
    differ by 3 * percent. *)
Theorem metrics_do_not_cover_input (p : Q) (z : Z) :
  0 <= p ->
  (0 <= z <= 100)%Z ->
  (exists s, update_scenario p = Ok s /\
     circular_N (metrics s) + accessible_N (metrics s) + lost_N (metrics s)
       == input_N (metrics s) - 3 * p /\
     flow (flows s) "F15" - flow (flows s) "F2" == 3 * p) /\
  (exists s qc qa ql qi q15 q2,
     update_scenario (T := spec_float) (num z) = Ok s /\
     b64_to_Q (circular_N (metrics s)) = Some qc /\
     b64_to_Q (accessible_N (metrics s)) = Some qa /\
     b64_to_Q (lost_N (metrics s)) = Some ql /\
     b64_to_Q (input_N (metrics s)) = Some qi /\
     b64_to_Q (flow (flows s) "F15") = Some q15 /\
     b64_to_Q (flow (flows s) "F2") = Some q2 /\
     qc + qa + ql == qi - 3 * inject_Z z /\
     q15 - q2 == 3 * inject_Z z).
Proof.
  intros Hp Hz. split; [exact (metrics_do_not_cover_input_exact p Hp) |].
  destruct (b64_metrics_at_slider z Hz) as (s & Hs & Hm & _ & Hg).
  unfold b64_metrics_closed in Hm. rewrite !andb_true_iff in Hm.
  destruct Hm as [[[[[Hi Hc] Ha] _] _] Hl].
  unfold b64_feed_gap in Hg. rewrite andb_true_iff in Hg. destruct Hg as [H15 H2].
  apply b64_is_value in Hi as (qi & Ei & Vi). apply b64_is_value in Hc as (qc & Ec & Vc).
  apply b64_is_value in Ha as (qa & Ea & Va). apply b64_is_value in Hl as (ql & El & Vl).
  apply b64_is_value in H15 as (q15 & E15 & V15).
  apply b64_is_value in H2 as (q2 & E2 & V2).
  exists s, qc, qa, ql, qi, q15, q2.
  do 7 (split; [assumption |]).
  rewrite Vc, Va, Vl, Vi, V15, V2. split; ring.
Qed.

Lemma metrics_do_not_cover_input_witness :
  0 <= 50 /\ (0 <= 33 <= 100)%Z /\
  (exists s, update_scenario 50 = Ok s /\
     circular_N (metrics s) + accessible_N (metrics s) + lost_N (metrics s)
       == input_N (metrics s) - 3 * 50 /\
     flow (flows s) "F15" - flow (flows s) "F2" == 3 * 50) /\
  (exists s qc qa ql qi q15 q2,
     update_scenario (T := spec_float) (num 33) = Ok s /\
     b64_to_Q (circular_N (metrics s)) = Some qc /\
     b64_to_Q (accessible_N (metrics s)) = Some qa /\
     b64_to_Q (lost_N (metrics s)) = Some ql /\
     b64_to_Q (input_N (metrics s)) = Some qi /\
     b64_to_Q (flow (flows s) "F15") = Some q15 /\
     b64_to_Q (flow (flows s) "F2") = Some q2 /\
     qc + qa + ql == qi - 3 * inject_Z 33 /\
     q15 - q2 == 3 * inject_Z 33).
Proof.
  assert (Hp : 0 <= 50) by discriminate.
  assert (Hz : (0 <= 33 <= 100)%Z) by lia.
  split; [exact Hp |]. split; [exact Hz |].
  exact (metrics_do_not_cover_input 50 33 Hp Hz).
Defined.

(** Monotonicity.  In exact arithmetic a larger percent gives a strictly
    smaller housing loss F7 and a strictly larger excretion F6, for any
    two percents.  On the floats it is so between any two positions of
    the slider: for integer percents [z1 < z2] from 0 to 100, F7 at [z2]
    is strictly below F7 at [z1] and F6 strictly above. *)
Theorem housing_loss_monotone (p q : Q) (z1 z2 : Z) :
  p < q ->
  (0 <= z1)%Z -> (z1 < z2)%Z -> (z2 <= 100)%Z ->
  (exists s1 s2, update_scenario p = Ok s1 /\ update_scenario q = Ok s2 /\
     flow (flows s2) "F7" < flow (flows s1) "F7" /\
     flow (flows s1) "F6" < flow (flows s2) "F6") /\
  (exists s1 s2,
     update_scenario (T := spec_float) (num z1) = Ok s1 /\
     update_scenario (T := spec_float) (num z2) = Ok s2 /\
     SFltb (flow (flows s2) "F7") (flow (flows s1) "F7") = true /\
     SFltb (flow (flows s1) "F6") (flow (flows s2) "F6") = true).
Proof.
  intros Hlt H0 Hz H100. split; [exact (housing_loss_monotone_exact p q Hlt) |].
  exact (b64_ordered z1 z2 H0 Hz H100).
Qed.

Lemma housing_loss_monotone_witness :
  5 < 50 /\ (0 <= 5)%Z /\ (5 < 50)%Z /\ (50 <= 100)%Z /\
  (exists s1 s2, update_scenario 5 = Ok s1 /\ update_scenario 50 = Ok s2 /\
     flow (flows s2) "F7" < flow (flows s1) "F7" /\
     flow (flows s1) "F6" < flow (flows s2) "F6") /\
  (exists s1 s2,
     update_scenario (T := spec_float) (num 5) = Ok s1 /\
     update_scenario (T := spec_float) (num 50) = Ok s2 /\
     SFltb (flow (flows s2) "F7") (flow (flows s1) "F7") = true /\
     SFltb (flow (flows s1) "F6") (flow (flows s2) "F6") = true).
Proof.
  assert (Hp : 5 < 50) by reflexivity.
  assert (H0 : (0 <= 5)%Z) by lia.
  assert (Hz : (5 < 50)%Z) by lia.
  assert (H100 : (50 <= 100)%Z) by lia.
  split; [exact Hp |]. split; [exact H0 |]. split; [exact Hz |]. split; [exact H100 |].
  exact (housing_loss_monotone 5 50 5 50 Hp H0 Hz H100).
Defined.

(** The fractions split a whole.  In exact arithmetic, whatever the
    baseline, the storage fractions sum to 1 and so do the soil fractions,
    and the crop fractions, taken of F11, sum to 1 exactly when the
    baseline has F15 + F16 = F11.  The fractions the module holds as
    floats, derived from its own baseline, sum to 1.0 in each group. *)
Theorem partition_fractions_sum_to_one (base : gmap string Q) (P : Partitions Q) :
  partition_fractions base = Ok P ->
  (P_F8 P + P_F9 P + P_F10 P == 1 /\
   P_F11 P + P_F12 P + P_F13 P == 1 /\
   (P_F15 P + P_F16 P == 1 <->
    flow base "F15" + flow base "F16" == flow base "F11")) /\
  (exists Pb, partition_fractions (T := spec_float) BASE_FLOWS_N = Ok Pb /\
     SFeqb (add (add (P_F8 Pb) (P_F9 Pb)) (P_F10 Pb)) (num 1) = true /\
     SFeqb (add (add (P_F11 Pb) (P_F12 Pb)) (P_F13 Pb)) (num 1) = true /\
     SFeqb (add (P_F15 Pb) (P_F16 Pb)) (num 1) = true).
Proof.
  intros HP. split; [exact (partition_fractions_sum_to_one_exact base P HP) |].
  exists B64_FRACTIONS. split; [exact b64_partition_fractions_baseline |].
  pose proof b64_fractions_sum as Hs. unfold b64_fractions_whole in Hs.
  rewrite !andb_true_iff in Hs. destruct Hs as [[H1 H2] H3].
  split; [exact H1 |]. split; [exact H2 | exact H3].
Qed.

Lemma partition_fractions_sum_to_one_witness :
  partition_fractions BASE_FLOWS_N = Ok FRACTIONS /\
  (P_F8 FRACTIONS + P_F9 FRACTIONS + P_F10 FRACTIONS == 1 /\
   P_F11 FRACTIONS + P_F12 FRACTIONS + P_F13 FRACTIONS == 1 /\
   (P_F15 FRACTIONS + P_F16 FRACTIONS == 1 <->
    flow (BASE_FLOWS_N (T := Q)) "F15" + flow (BASE_FLOWS_N (T := Q)) "F16"
      == flow (BASE_FLOWS_N (T := Q)) "F11")) /\
  (exists Pb, partition_fractions (T := spec_float) BASE_FLOWS_N = Ok Pb /\
     SFeqb (add (add (P_F8 Pb) (P_F9 Pb)) (P_F10 Pb)) (num 1) = true /\
     SFeqb (add (add (P_F11 Pb) (P_F12 Pb)) (P_F13 Pb)) (num 1) = true /\
     SFeqb (add (P_F15 Pb) (P_F16 Pb)) (num 1) = true).
Proof.
  split; [exact partition_fractions_baseline |].
  exact (partition_fractions_sum_to_one BASE_FLOWS_N FRACTIONS
           partition_fractions_baseline).
Defined.

(** The bars of the callback.  In exact arithmetic, from percent 0 upward,
    they sum to 100 - percent / 17, so they cover the whole input only at
    percent 0.  On the floats, at every integer percent from 0 to 100, the
    values of the three bars sum to 100 - percent / 17 within 1e-9. *)
Theorem bars_sum (p : Q) (z : Z) :
  0 <= p ->
  (0 <= z <= 100)%Z ->
  (exists s fig c a l, update_scenario_figures p = Ok (s, fig, [c; a; l]) /\
     c + a + l == 100 - p / 17) /\
  (exists s fig c a l qc qa ql,
     update_scenario_figures (T := spec_float) (num z) = Ok (s, fig, [c; a; l]) /\
     b64_to_Q c = Some qc /\ b64_to_Q a = Some qa /\ b64_to_Q l = Some ql /\
     Qabs (qc + qa + ql - (100 - inject_Z z / 17)) <= 1 # 1000000000).
Proof.
  intros Hp Hz. split; [exact (bars_sum_exact p Hp) |].
  assert (Hc : b64_bars_at z = true)
    by (apply (Z_below_forallb _ 101 z b64_bars_slider); lia).
  unfold b64_bars_at in Hc.
  destruct (update_scenario_figures (T := spec_float) (num z)) as [[[s fig] bars] | e];
    [| discriminate Hc].
  unfold b64_bars_close in Hc.
  destruct bars as [| c [| a [| l [| x bars]]]]; try discriminate Hc.
  destruct (b64_to_Q c) as [qc |] eqn:Ec; [| discriminate Hc].
  destruct (b64_to_Q a) as [qa |] eqn:Ea; [| discriminate Hc].
  destruct (b64_to_Q l) as [ql |] eqn:El; [| discriminate Hc].
  apply Qle_bool_iff in Hc.
  exists s, fig, c, a, l, qc, qa, ql.
  split; [reflexivity |]. split; [exact Ec |]. split; [exact Ea |].
  split; [exact El | exact Hc].
Qed.

Lemma bars_sum_witness :
  0 <= 17 /\ (0 <= 4 <= 100)%Z /\
  (exists s fig c a l, update_scenario_figures 17 = Ok (s, fig, [c; a; l]) /\
     c + a + l == 100 - 17 / 17) /\
  (exists s fig c a l qc qa ql,
     update_scenario_figures (T := spec_float) (num 4) = Ok (s, fig, [c; a; l]) /\
     b64_to_Q c = Some qc /\ b64_to_Q a = Some qa /\ b64_to_Q l = Some ql /\
     Qabs (qc + qa + ql - (100 - inject_Z 4 / 17)) <= 1 # 1000000000).
Proof.
  assert (Hp : 0 <= 17) by discriminate.
  assert (Hz : (0 <= 4 <= 100)%Z) by lia.
  split; [exact Hp |]. split; [exact Hz |].
  exact (bars_sum 17 4 Hp Hz).
Defined.

Lemma b64_interactive_run (f : spec_float) :
  Interactive.update_scenario f =
    Ok (<["F6" := run_F6 f]> (<["F7" := run_F7 f]> BASE_FLOWS_N),
        {| input_N := add (add (num 4800) (num 300)) (num 0);
           circular_N := add (add (num 2400) (num 100)) (num 500);
           accessible_N := num 50;
           lost_N := add (add (add (add (run_F7 f) (num 300)) (num 300)) (num 50))
                         (num 500);
           env_loss := add (add (add (run_F7 f) (num 300)) (num 300)) (num 50);
           locked_stable := num 500 |}).
Proof. apply interactive_run. reflexivity. Qed.

(** The interactive variant moves nitrogen from F7 to F6 and touches
    nothing else.  In exact arithmetic F7 is 900 - 9 p and F6 is
    2400 + 9 p, so the manure storage receives 9 p more than
    F8 + F9 + F10 carry away, and the metrics have circular 3000,
    environmental loss 1550 - 9 p and lost 2050 - 9 p.  On the floats, for
    any float percent, the eighteen other entries are those of the
    baseline and the metrics have input 5100.0, circular 3000.0,
    accessible 50.0 and stable soil gain 500.0. *)
Theorem interactive_moves_housing_loss_only (p : Q) (f : spec_float) :
  (exists t m, Interactive.update_scenario p = Ok (t, m) /\
     flow t "F7" == 900 - 9 * p /\
     flow t "F6" == 2400 + 9 * p /\
     (forall k, k <> "F6" -> k <> "F7" -> t !! k = BASE_FLOWS_N !! k) /\
     flow t "F6" - (flow t "F8" + flow t "F9" + flow t "F10") == 9 * p /\
     input_N m == 5100 /\ circular_N m == 3000 /\ accessible_N m == 50 /\
     locked_stable m == 500 /\ env_loss m == 1550 - 9 * p /\
     lost_N m == 2050 - 9 * p) /\
  (exists t m, Interactive.update_scenario f = Ok (t, m) /\
     (forall k, k <> "F6" -> k <> "F7" -> t !! k = BASE_FLOWS_N !! k) /\
     input_N m = num 5100 /\ circular_N m = num 3000 /\
     accessible_N m = num 50 /\ locked_stable m = num 500).
Proof.
  split; [exact (interactive_moves_housing_loss_only_exact p) |].
  do 2 eexists. split; [apply b64_interactive_run |].
  split.
  { intros k Hk6 Hk7. by rewrite !lookup_insert_ne. }
  cbn [input_N circular_N accessible_N locked_stable].
  split; [vm_compute; reflexivity |]. split; [vm_compute; reflexivity |].
  split; reflexivity.
Qed.

(** The constants 50 and 500 of the earlier metrics against the derived
    formulas.  In exact arithmetic, on any table with the twenty keys,
    both functions return, with the same input, circular and
    environmental loss; accessible agrees exactly when the soil-available
    inflow reaches 50, and the stable soil gain and lost exactly when
    F9 + F13 - F14 is 500.  On any table of floats with the twenty keys
    both return the same floats for input, circular and environmental
    loss, and the same accessible whenever the inflow is not below 50. *)
Theorem toy_metrics_against_derived (t : gmap string Q) (tb : gmap string spec_float) :
  has_keys t FLOW_KEYS ->
  has_keys tb FLOW_KEYS ->
  (exists mt md,
     Interactive.compute_circularity_metrics_N t = Ok mt /\
     compute_circularity_metrics_N t = Ok md /\
     input_N mt = input_N md /\ circular_N mt = circular_N md /\
     env_loss mt = env_loss md /\
     (accessible_N mt == accessible_N md <-> 50 <= inflow_C7 t) /\
     (locked_stable mt == locked_stable md <->
      flow t "F9" + flow t "F13" - flow t "F14" == 500) /\
     (lost_N mt == lost_N md <->
      flow t "F9" + flow t "F13" - flow t "F14" == 500)) /\
  (exists mt md,
     Interactive.compute_circularity_metrics_N tb = Ok mt /\
     compute_circularity_metrics_N tb = Ok md /\
     input_N mt = input_N md /\ circular_N mt = circular_N md /\
     env_loss mt = env_loss md /\
     (SFltb (add (add (add (flow tb "F4") (flow tb "F8")) (flow tb "F14"))
                 (flow tb "F18")) (num 50) = false ->
      accessible_N mt = accessible_N md)).
Proof.
  intros Hk Hkb. split; [exact (toy_metrics_against_derived_exact t Hk) |].
  do 2 eexists. split.
  { apply toy_metrics_has_keys. intros k Hin. apply Hkb.
    unfold TOY_READ_KEYS in Hin.
    repeat (apply elem_of_cons in Hin as [-> | Hin]; [key_in_list |]).
    by apply elem_of_nil in Hin. }
  split.
  { apply derived_metrics_has_keys. intros k Hin. apply Hkb.
    by apply READ_KEYS_FLOW_KEYS. }
  cbn [input_N circular_N env_loss accessible_N].
  do 3 (split; [reflexivity |]).
  intros Hlt. unfold py_min, ACCESSIBLE_TARGET. cbn [lt b64_number].
  rewrite Hlt. reflexivity.
Qed.

Lemma toy_metrics_against_derived_witness :
  has_keys (BASE_FLOWS_N (T := Q)) FLOW_KEYS /\
  has_keys (BASE_FLOWS_N (T := spec_float)) FLOW_KEYS /\
  (exists mt md,
     Interactive.compute_circularity_metrics_N (BASE_FLOWS_N (T := Q)) = Ok mt /\
     compute_circularity_metrics_N (BASE_FLOWS_N (T := Q)) = Ok md /\
     input_N mt = input_N md /\ circular_N mt = circular_N md /\
     env_loss mt = env_loss md /\
     (accessible_N mt == accessible_N md <-> 50 <= inflow_C7 BASE_FLOWS_N) /\
     (locked_stable mt == locked_stable md <->
      flow (BASE_FLOWS_N (T := Q)) "F9" + flow (BASE_FLOWS_N (T := Q)) "F13"
        - flow (BASE_FLOWS_N (T := Q)) "F14" == 500) /\
     (lost_N mt == lost_N md <->
      flow (BASE_FLOWS_N (T := Q)) "F9" + flow (BASE_FLOWS_N (T := Q)) "F13"
        - flow (BASE_FLOWS_N (T := Q)) "F14" == 500)) /\
  (exists mt md,
     Interactive.compute_circularity_metrics_N (BASE_FLOWS_N (T := spec_float)) = Ok mt /\
     compute_circularity_metrics_N (BASE_FLOWS_N (T := spec_float)) = Ok md /\
     input_N mt = input_N md /\ circular_N mt = circular_N md /\
     env_loss mt = env_loss md /\
     (SFltb (add (add (add (flow (BASE_FLOWS_N (T := spec_float)) "F4")
                           (flow (BASE_FLOWS_N (T := spec_float)) "F8"))
                      (flow (BASE_FLOWS_N (T := spec_float)) "F14"))
                 (flow (BASE_FLOWS_N (T := spec_float)) "F18")) (num 50) = false ->
      accessible_N mt = accessible_N md)).
Proof.
  split; [exact BASE_FLOWS_N_has_keys |].
  split; [exact b64_BASE_FLOWS_N_has_keys |].
  exact (toy_metrics_against_derived BASE_FLOWS_N BASE_FLOWS_N
           BASE_FLOWS_N_has_keys b64_BASE_FLOWS_N_has_keys).
Defined.
